(** * The DMA ring of the fpgalink PCIe driver (driver/fpgalink.c)

    A shallow embedding of the interrupt handler [serviceInterrupt], the
    read path [cdevRead], [cdevOpen], the entry point [cdevIOCtl] with its
    command-list loop, and the attach and detach paths [pcieProbe],
    [mapBars], [unmapBars] and [pcieRemove], with the properties of the ring
    counters, of the descriptor submissions, of the command batches and of
    the resources taken and given back proved about them.

    Conventions.
    - A [u32] is a [Z] in [0, 2^32); every C operation on one is written
      with its wrap-around ([wrap32]) and [&] is [Z.land].
    - BAR0 is seen through the accesses the driver makes to it: the field
      [bar0] is the list of 32-bit reads and writes issued so far, oldest
      first, each with its word offset from [regSpace].  What a read
      returns is decided by the endpoint, a function [hw] of that history.
    - User memory can fault: the user's read buffer is a writable region of
      some length, the user's command array a list of cells that are
      read-only or writable; what lies beyond is unmapped.
    - The kernel is seen through the calls the attach path makes to it: a
      record [kernel] holds what it answers, and [pcieProbe] and
      [pcieRemove] return the list of their calls; [printk], and
      [scanBars] which only prints, leave no trace there. *)

From Stdlib Require Import ZArith List Lia Bool.
From Stdlib Require Strings.Byte.
From stdpp Require Import base list.
Import ListNotations.

Local Open Scope Z_scope.

(** ** Machine integers and kernel constants *)

Definition wrap32 (x : Z) : Z := x mod 2 ^ 32.

Definition u32 (x : Z) : Prop := 0 <= x < 2 ^ 32.

(** [#define NUM_BUFS 32] *)
Definition NUM_BUFS : Z := 32.

(** errno values of the kernel ([errno-base.h], [linux/errno.h]). *)
Definition EFAULT : Z := 14.
Definition EINVAL : Z := 22.
Definition ERESTARTSYS : Z := 512.

Inductive irqreturn_t : Type := IRQ_NONE | IRQ_HANDLED.

(** ** The device record *)

(** One 32-bit access to BAR0, at word offset [off] from [regSpace]. *)
Inductive mmio : Type :=
| IoWrite (off val : Z)
| IoRead (off val : Z).

(** [struct AlteraDevice], the fields the ring uses.  [bufferArrayVirt] is
    the kernel's view of the pool: the byte at a given offset from the
    start of the coherent region. *)
Record AlteraDevice : Type := mkAlteraDevice {
  bar0 : list mmio;
  bufferArrayVirt : Z -> Byte.byte;
  bufferArrayBus : Z;
  numAvailable : Z;
  numSubmitted : Z;
  outIndex : Z
}.

Definition set_bar0 (h : list mmio) (ape : AlteraDevice) : AlteraDevice :=
  mkAlteraDevice h (bufferArrayVirt ape) (bufferArrayBus ape)
                 (numAvailable ape) (numSubmitted ape) (outIndex ape).

Definition set_numAvailable (v : Z) (ape : AlteraDevice) : AlteraDevice :=
  mkAlteraDevice (bar0 ape) (bufferArrayVirt ape) (bufferArrayBus ape)
                 v (numSubmitted ape) (outIndex ape).

Definition set_numSubmitted (v : Z) (ape : AlteraDevice) : AlteraDevice :=
  mkAlteraDevice (bar0 ape) (bufferArrayVirt ape) (bufferArrayBus ape)
                 (numAvailable ape) v (outIndex ape).

Definition set_outIndex (v : Z) (ape : AlteraDevice) : AlteraDevice :=
  mkAlteraDevice (bar0 ape) (bufferArrayVirt ape) (bufferArrayBus ape)
                 (numAvailable ape) (numSubmitted ape) v.

(** The three ring counters, for statements about "the ring state". *)
Definition ring (ape : AlteraDevice) : Z * Z * Z :=
  (numAvailable ape, numSubmitted ape, outIndex ape).

(** ** Register access *)

(** [#define DMABASE(x) ((x)+0*2+1)] and [#define DMACTRL(x) ((x)+1*2+1)],
    as word offsets: [regSpace] itself is offset 0. *)
Definition regSpace : Z := 0.
Definition DMABASE (x : Z) : Z := x + 0 * 2 + 1.
Definition DMACTRL (x : Z) : Z := x + 1 * 2 + 1.

Definition iowrite32 (val off : Z) (ape : AlteraDevice) : AlteraDevice :=
  set_bar0 (bar0 ape ++ [IoWrite off val]) ape.

(** [submitDmaReq]: the address is cast to [u32], the TLP count is a [u32]
    parameter. *)
Definition submitDmaReq (ape : AlteraDevice) (addr numTLPs : Z) : AlteraDevice :=
  let ape := iowrite32 (wrap32 addr) (DMABASE regSpace) ape in
  iowrite32 (wrap32 numTLPs) (DMACTRL regSpace) ape.

(** ** User memory of the control path *)

(** Modelled from the spec: [struct Cmd] of ioctl_defs.h,
    [Cmd{op: u32, reg: u32, val: u32}]. *)
Record Cmd : Type := mkCmd { op : Z; reg : Z; val : Z }.

(** One [struct Cmd] of the caller's array, readable, and writable or not.
    The array is a list of such cells; an index past its end is unmapped. *)
Record ucell : Type := mkucell { cell : Cmd; writable : bool }.

Section Driver.

(** [BUF_SIZE] comes from ioctl_defs.h; [struct Buffer] is [u8 data[BUF_SIZE]],
    so [sizeof(struct Buffer)] is [BUF_SIZE]. *)
Variable BUF_SIZE : Z.

Definition sizeof_Buffer : Z := BUF_SIZE.

(** ** Interrupt service routine *)

(** The body of [while ( submitCount-- )], run [submitCount] times. *)
Fixpoint submitLoop (submitCount : nat) (submitIndex : Z) (ape : AlteraDevice)
  : AlteraDevice :=
  match submitCount with
  | O => ape
  | S submitCount =>
      let ape := submitDmaReq ape (bufferArrayBus ape + submitIndex * sizeof_Buffer)
                              (BUF_SIZE ÷ 128) in
      let submitIndex := wrap32 (submitIndex + 1) in
      let submitIndex := Z.land submitIndex (NUM_BUFS - 1) in
      let ape := set_numSubmitted (wrap32 (numSubmitted ape + 1)) ape in
      submitLoop submitCount submitIndex ape
  end.

(** [serviceInterrupt]; [devID] is the cookie given to [request_irq], [None]
    when it is a null pointer.  Waking the wait queue changes no field. *)
Definition serviceInterrupt (devID : option AlteraDevice)
  : irqreturn_t * option AlteraDevice :=
  match devID with
  | None => (IRQ_NONE, None)
  | Some ape =>
      let ape := set_numAvailable (wrap32 (numAvailable ape + 1)) ape in
      let ape := set_numSubmitted (wrap32 (numSubmitted ape - 1)) ape in
      let submitCount := wrap32 (NUM_BUFS - numAvailable ape - numSubmitted ape) in
      let submitIndex := wrap32 (outIndex ape + numAvailable ape) in
      let submitIndex := Z.land submitIndex (NUM_BUFS - 1) in
      let ape := submitLoop (Z.to_nat submitCount) submitIndex ape in
      (IRQ_HANDLED, Some ape)
  end.

(** ** Read path *)

(** The [BUF_SIZE] bytes of [bufferArrayVirt[i].data]. *)
Definition slot_data (ape : AlteraDevice) (i : Z) : list Byte.byte :=
  map (fun k => bufferArrayVirt ape (i * sizeof_Buffer + Z.of_nat k))
      (seq 0 (Z.to_nat BUF_SIZE)).

(** [copy_to_user(to, from, n)]: [to] is the destination as far as it is
    writable.  Copies what fits and returns the number of bytes that could
    not be copied. *)
Definition copy_to_user (to from : list Byte.byte) (n : Z)
  : list Byte.byte * Z :=
  let k := Nat.min (Z.to_nat n) (length to) in
  (take k from ++ drop k to, n - Z.of_nat k).

(** What happens while a reader sleeps on [ape->wq]: the device raises an
    interrupt, or a signal is delivered to the reader. *)
Inductive wake : Type := Irq | Sig.

(** [wait_event_interruptible(ape->wq, ape->numAvailable > 0)]: 0 once the
    condition holds, [-ERESTARTSYS] when a signal arrives first.  [None]:
    nothing more happens and the reader stays asleep. *)
Fixpoint wait_event_interruptible (evs : list wake) (ape : AlteraDevice)
  : option (Z * AlteraDevice) :=
  if 0 <? numAvailable ape then Some (0, ape)
  else
    match evs with
    | [] => None
    | Sig :: _ => Some (- ERESTARTSYS, ape)
    | Irq :: evs =>
        match snd (serviceInterrupt (Some ape)) with
        | Some ape => wait_event_interruptible evs ape
        | None => None
        end
    end.

(** [cdevRead]: returns the [ssize_t] result, the device record and the
    user's buffer.  Neither the result of the wait nor [rc] is looked at. *)
Definition cdevRead (ape : AlteraDevice) (buf : list Byte.byte) (count : Z)
           (evs : list wake) : option (Z * AlteraDevice * list Byte.byte) :=
  if count <? BUF_SIZE then Some (- EINVAL, ape, buf)
  else
    match wait_event_interruptible evs ape with
    | None => None
    | Some (_, ape) =>
        let '(buf, rc) := copy_to_user buf (slot_data ape (outIndex ape)) BUF_SIZE in
        let ape := submitDmaReq ape (bufferArrayBus ape + outIndex ape * sizeof_Buffer)
                                (BUF_SIZE ÷ 128) in
        let ape := set_numSubmitted (wrap32 (numSubmitted ape + 1)) ape in
        let ape := set_outIndex (wrap32 (outIndex ape + 1)) ape in
        let ape := set_outIndex (Z.land (outIndex ape) (NUM_BUFS - 1)) ape in
        let ape := set_numAvailable (wrap32 (numAvailable ape - 1)) ape in
        Some (BUF_SIZE, ape, buf)
    end.

(** ** Control path *)

(** Op-codes of ioctl_defs.h. *)
Variables OP_RD OP_WR OP_SD : Z.

(** The endpoint: the value it returns for a read of word [off] after the
    accesses [h]. *)
Variable hw : list mmio -> Z -> Z.

Definition ioread32 (off : Z) (ape : AlteraDevice) : Z * AlteraDevice :=
  let v := hw (bar0 ape) off in
  (v, set_bar0 (bar0 ape ++ [IoRead off v]) ape).

Definition copy_from_user (umem : list ucell) (ucp : nat) : option Cmd :=
  cell <$> umem !! ucp.

(** [put_user(v, &ucp->val)] *)
Definition put_user (v : Z) (umem : list ucell) (ucp : nat)
  : option (list ucell) :=
  match umem !! ucp with
  | Some c =>
      if writable c
      then Some (<[ucp := mkucell (mkCmd (op (cell c)) (reg (cell c)) v) true]> umem)
      else None
  | None => None
  end.

(** One turn of [while ( numCmds )] up to [ucp++]: either the loop goes on,
    or [cdevIOCtl] returns. *)
Inductive turn : Type :=
| Continue (ape : AlteraDevice) (umem : list ucell)
| Return (rc : Z) (ape : AlteraDevice) (umem : list ucell).

Definition execCmd (ucp : nat) (ape : AlteraDevice) (umem : list ucell) : turn :=
  match copy_from_user umem ucp with
  | None => Return (- EFAULT) ape umem
  | Some kc =>
      let reg := wrap32 (1 + reg kc * 2) in
      if op kc =? OP_RD then
        let '(v, ape) := ioread32 (regSpace + reg) ape in
        match put_user v umem ucp with
        | None => Return (- EFAULT) ape umem
        | Some umem => Continue ape umem
        end
      else if op kc =? OP_WR then
        Continue (iowrite32 (val kc) (regSpace + reg) ape) umem
      else if op kc =? OP_SD then
        let ape := set_outIndex 0 ape in
        let ape := set_numAvailable (outIndex ape) ape in
        let ape := set_numSubmitted 1 ape in
        Continue (submitDmaReq ape (bufferArrayBus ape) (BUF_SIZE ÷ 128)) umem
      else
        Return (- EFAULT) ape umem
  end.

(** The loop of the [FPGALINK_CMDLIST] case and the [return 0] after it:
    [numCmds] commands starting at [ucp]. *)
Fixpoint cmdListLoop (numCmds ucp : nat) (ape : AlteraDevice) (umem : list ucell)
  : Z * AlteraDevice * list ucell :=
  match numCmds with
  | O => (0, ape, umem)
  | S numCmds =>
      match execCmd ucp ape umem with
      | Return rc ape umem => (rc, ape, umem)
      | Continue ape umem => cmdListLoop numCmds (S ucp) ape umem
      end
  end.

(** ** Open and release *)

(** [cdevOpen]: [ape->numAvailable = ape->outIndex = ape->numSubmitted = 0]. *)
Definition cdevOpen (ape : AlteraDevice) : Z * AlteraDevice :=
  let ape := set_numSubmitted 0 ape in
  let ape := set_outIndex (numSubmitted ape) ape in
  let ape := set_numAvailable (outIndex ape) ape in
  (0, ape).

Definition cdevRelease (ape : AlteraDevice) : Z * AlteraDevice := (0, ape).

(** ** The ioctl entry point *)

(** The command word as [asm-generic/ioctl.h] splits it: 8 bits of number,
    8 of type, 14 of size, 2 of direction. *)
Definition _IOC_NR (nr : Z) : Z := Z.land (Z.shiftr nr 0) 255.
Definition _IOC_TYPE (nr : Z) : Z := Z.land (Z.shiftr nr 8) 255.
Definition _IOC_SIZE (nr : Z) : Z := Z.land (Z.shiftr nr 16) 16383.
Definition _IOC_DIR (nr : Z) : Z := Z.land (Z.shiftr nr 30) 3.
Definition _IOC_WRITE : Z := 1.
Definition _IOC_READ : Z := 2.
Definition ENOTTY : Z := 25.

(** Magic, highest number and the command-list command of ioctl_defs.h. *)
Variables FPGALINK_IOC_MAGIC FPGALINK_IOC_MAXNR FPGALINK_CMDLIST : Z.

(** What [arg] points to: whether [access_ok] grants a write ([true]) or a
    read ([false]) of a given size there, and the [struct CmdList] found
    there, as the number of commands and the place of the first one in the
    user's array; [None] when it cannot be copied in. *)
Record ioctl_arg : Type := mk_ioctl_arg {
  arg_access_ok : bool -> Z -> bool;
  arg_CmdList : option (Z * nat)
}.

Definition cdevIOCtl (cmd : Z) (arg : ioctl_arg) (ape : AlteraDevice)
           (umem : list ucell) : Z * AlteraDevice * list ucell :=
  if negb (_IOC_TYPE cmd =? FPGALINK_IOC_MAGIC) then (- ENOTTY, ape, umem)
  else if _IOC_NR cmd >? FPGALINK_IOC_MAXNR then (- ENOTTY, ape, umem)
  else
    let err :=
      if negb (Z.land (_IOC_DIR cmd) _IOC_READ =? 0)
      then negb (arg_access_ok arg true (_IOC_SIZE cmd))
      else if negb (Z.land (_IOC_DIR cmd) _IOC_WRITE =? 0)
      then negb (arg_access_ok arg false (_IOC_SIZE cmd))
      else false in
    if err then (- EFAULT, ape, umem)
    else if cmd =? FPGALINK_CMDLIST then
      match arg_CmdList arg with
      | None => (- EFAULT, ape, umem)
      | Some (numCmds, ucp) => cmdListLoop (Z.to_nat numCmds) ucp ape umem
      end
    else (0, ape, umem).

(** ** Attach and detach *)

Definition ENODEV : Z := 19.
Definition ENOMEM : Z := 12.

(** [#define APE_BAR_NUM (1)] and [barMinLen]. *)
Definition APE_BAR_NUM : nat := 1.
Definition barMinLen : list Z := [256].

(** [unsigned long] arithmetic, on a 64-bit kernel. *)
Definition wrapL (x : Z) : Z := x mod 2 ^ 64.

(** The kernel services the attach path calls. *)
Inductive kcall : Type :=
| kzalloc | kfree
| dev_set_drvdata
| pci_enable_device | pci_disable_device
| pci_set_master
| pci_enable_msi | pci_disable_msi
| pci_read_config_byte
| pci_request_regions | pci_release_regions
| pci_set_dma_mask (bits : Z) | pci_set_consistent_dma_mask (bits : Z)
| request_irq | free_irq
| pci_iomap (i : nat) | pci_iounmap (i : nat)
| pci_alloc_consistent | pci_free_consistent
| alloc_chrdev_region | unregister_chrdev_region
| cdev_init | cdev_add | cdev_del
| init_waitqueue_head.

(** A call and whether it succeeded; calls that cannot fail succeed. *)
Definition kevent : Type := (kcall * bool)%type.

(** What the kernel answers during one attach. *)
Record kernel : Type := mkkernel {
  k_kzalloc : bool;
  k_pci_enable_device : Z;
  k_pci_enable_msi : Z;
  k_pci_request_regions : Z;
  k_pci_set_dma_mask : Z -> Z;
  k_request_irq : Z;
  k_pci_resource_start : nat -> Z;
  k_pci_resource_end : nat -> Z;
  k_pci_iomap : nat -> option Z;
  k_pci_alloc_consistent : option ((Z -> Byte.byte) * Z);
  k_alloc_chrdev_region : Z;
  k_cdev_add : Z
}.

(** The rest of [struct AlteraDevice]: the BAR mappings beside the ring. *)
Record Board : Type := mkBoard {
  bar : list (option Z);
  ape_of : AlteraDevice
}.

(** [unmapBars] *)
Definition unmapBars (bar : list (option Z)) (tr : list kevent)
  : list (option Z) * list kevent :=
  fold_left (fun '(bar, tr) i =>
               match bar !! i with
               | Some (Some _) => (<[i := None]> bar, tr ++ [(pci_iounmap i, true)])
               | _ => (bar, tr)
               end)
            (seq 0 APE_BAR_NUM) (bar, tr).

(** The [for] loop of [mapBars], over the BAR numbers still to do; the
    result is 0 when it runs to its end and [rc] when it leaves for [fail]. *)
Fixpoint mapBars_loop (k : kernel) (todo : list nat) (bar : list (option Z))
         (tr : list kevent) : Z * list (option Z) * list kevent :=
  match todo with
  | [] => (0, bar, tr)
  | i :: todo =>
      let barStart := k_pci_resource_start k i in
      let barEnd := k_pci_resource_end k i in
      let bar := <[i := None]> bar in
      if default 0 (barMinLen !! i) =? 0 then mapBars_loop k todo bar tr
      else if (barStart =? 0) || (barEnd =? 0) then (-1, bar, tr)
      else
        let barLength := wrapL (barEnd - barStart + 1) in
        if barLength <? default 0 (barMinLen !! i) then (-1, bar, tr)
        else
          match k_pci_iomap k i with
          | None => (-1, bar, tr ++ [(pci_iomap i, false)])
          | Some a =>
              mapBars_loop k todo (<[i := Some a]> bar) (tr ++ [(pci_iomap i, true)])
          end
  end.

(** [mapBars] *)
Definition mapBars (k : kernel) (bar : list (option Z)) (tr : list kevent)
  : Z * list (option Z) * list kevent :=
  let '(rc, bar, tr) := mapBars_loop k (seq 0 APE_BAR_NUM) bar tr in
  if rc =? 0 then (0, bar, tr)
  else let '(bar, tr) := unmapBars bar tr in (rc, bar, tr).

(** The labels at the end of [pcieProbe], each falling into the next. *)
Definition err_enable (tr : list kevent) : list kevent :=
  tr ++ [(kfree, true)].
Definition err_msi (alreadyInUse : bool) (tr : list kevent) : list kevent :=
  err_enable (if alreadyInUse then tr ++ [(pci_disable_device, true)] else tr).
Definition err_regions (alreadyInUse : bool) (tr : list kevent) : list kevent :=
  err_msi alreadyInUse (tr ++ [(pci_disable_msi, true)]).
Definition err_mask (tr : list kevent) : list kevent :=
  err_regions false (tr ++ [(pci_release_regions, true)]).
Definition err_irq (tr : list kevent) : list kevent := err_mask tr.
Definition err_map (tr : list kevent) : list kevent :=
  err_irq (tr ++ [(free_irq, true)]).
Definition err_buf_alloc (bar : list (option Z)) (tr : list kevent) : list kevent :=
  err_map (snd (unmapBars bar tr)).
Definition err_cdev_alloc (bar : list (option Z)) (tr : list kevent) : list kevent :=
  err_buf_alloc bar (tr ++ [(pci_free_consistent, true)]).
Definition err_cdev_add (bar : list (option Z)) (tr : list kevent) : list kevent :=
  err_cdev_alloc bar (tr ++ [(unregister_chrdev_region, true)]).

(** [pcieProbe]: the result, the kernel calls made, and the board when the
    device has been taken.  [kzalloc] hands out zeroed memory. *)
Definition pcieProbe (k : kernel) : Z * list kevent * option Board :=
  if negb (sizeof_Buffer mod 128 =? 0) then (- ENODEV, [], None)
  else if negb (k_kzalloc k) then (- ENOMEM, [(kzalloc, false)], None)
  else
    let bar := repeat None APE_BAR_NUM in
    let tr := [(kzalloc, true); (dev_set_drvdata, true)] in
    let rc := k_pci_enable_device k in
    if negb (rc =? 0) then (rc, err_enable (tr ++ [(pci_enable_device, false)]), None)
    else
    let tr := tr ++ [(pci_enable_device, true); (pci_set_master, true)] in
    let rc := k_pci_enable_msi k in
    if negb (rc =? 0) then (rc, err_msi false (tr ++ [(pci_enable_msi, false)]), None)
    else
    let tr := tr ++ [(pci_enable_msi, true); (pci_read_config_byte, true)] in
    let rc := k_pci_request_regions k in
    if negb (rc =? 0)
    then (rc, err_regions true (tr ++ [(pci_request_regions, false)]), None)
    else
    let tr := tr ++ [(pci_request_regions, true)] in
    let mask :=
      if k_pci_set_dma_mask k 64 =? 0
      then Some (tr ++ [(pci_set_dma_mask 64, true);
                        (pci_set_consistent_dma_mask 64, true)])
      else if k_pci_set_dma_mask k 32 =? 0
      then Some (tr ++ [(pci_set_dma_mask 64, false); (pci_set_dma_mask 32, true);
                        (pci_set_consistent_dma_mask 32, true)])
      else None in
    match mask with
    | None =>
        (- ENODEV,
         err_mask (tr ++ [(pci_set_dma_mask 64, false); (pci_set_dma_mask 32, false)]),
         None)
    | Some tr =>
    let rc := k_request_irq k in
    if negb (rc =? 0) then (rc, err_irq (tr ++ [(request_irq, false)]), None)
    else
    let tr := tr ++ [(request_irq, true)] in
    let '(rc, bar, tr) := mapBars k bar tr in
    if negb (rc =? 0) then (rc, err_map tr, None)
    else
    match k_pci_alloc_consistent k with
    | None => (- ENOMEM, err_buf_alloc bar (tr ++ [(pci_alloc_consistent, false)]), None)
    | Some (virt, bus) =>
    let tr := tr ++ [(pci_alloc_consistent, true)] in
    let rc := k_alloc_chrdev_region k in
    if negb (rc =? 0)
    then (rc, err_cdev_alloc bar (tr ++ [(alloc_chrdev_region, false)]), None)
    else
    let tr := tr ++ [(alloc_chrdev_region, true); (cdev_init, true)] in
    let rc := k_cdev_add k in
    if negb (rc =? 0) then (rc, err_cdev_add bar (tr ++ [(cdev_add, false)]), None)
    else
    (0, tr ++ [(cdev_add, true); (init_waitqueue_head, true)],
     Some (mkBoard bar (mkAlteraDevice [] virt bus 0 0 0)))
    end
    end.

(** [pcieRemove] *)
Definition pcieRemove (b : Board) : list kevent :=
  let tr := [(cdev_del, true); (unregister_chrdev_region, true);
             (pci_free_consistent, true)] in
  let '(_, tr) := unmapBars (bar b) tr in
  tr ++ [(free_irq, true); (pci_release_regions, true); (pci_disable_msi, true);
         (pci_disable_device, true); (kfree, true)].

(** ** The driver at work *)

(** What reaches the driver once the device is open: an interrupt of the
    endpoint, or a [read] call with its buffer, its count and what happens
    while it sleeps. *)
Inductive action : Type :=
| Interrupt
| Read (buf : list Byte.byte) (count : Z) (evs : list wake).

Definition step (a : action) (ape : AlteraDevice) : option AlteraDevice :=
  match a with
  | Interrupt => snd (serviceInterrupt (Some ape))
  | Read buf count evs =>
      match cdevRead ape buf count evs with
      | Some (_, ape, _) => Some ape
      | None => None
      end
  end.

Fixpoint run (acts : list action) (ape : AlteraDevice) : option AlteraDevice :=
  match acts with
  | [] => Some ape
  | a :: acts =>
      match step a ape with
      | Some ape => run acts ape
      | None => None
      end
  end.

End Driver.

(** ** The ring as the design describes it *)

(** [n] consecutive slots in ascending ring order, wrapping at [NUM_BUFS],
    the first one being slot [from mod NUM_BUFS]. *)
Fixpoint ringSlots (from : Z) (n : nat) : list Z :=
  match n with
  | O => []
  | S n => from mod NUM_BUFS :: ringSlots (from + 1) n
  end.

(** Step 1 of the handler: one slot goes from Submitted to Available. *)
Definition credit (ape : AlteraDevice) : AlteraDevice :=
  set_numSubmitted (numSubmitted ape - 1)
    (set_numAvailable (numAvailable ape + 1) ape).

(** The Free region: [NUM_BUFS - numAvailable - numSubmitted] slots, the
    first one at [(outIndex + numAvailable) mod NUM_BUFS]. *)
Definition freeSlots (ape : AlteraDevice) : list Z :=
  ringSlots (outIndex ape + numAvailable ape)
            (Z.to_nat (NUM_BUFS - numAvailable ape - numSubmitted ape)).

(** What the endpoint sees when one slot is submitted: the low 32 bits of
    the slot's bus address in the DMA base register (word 1), then the TLP
    count in the DMA control register (word 3). *)
Definition submission (BUF_SIZE bus slot : Z) : list mmio :=
  [IoWrite 1 (wrap32 (bus + slot * BUF_SIZE)); IoWrite 3 (wrap32 (BUF_SIZE ÷ 128))].

Definition submissions (BUF_SIZE bus : Z) (slots : list Z) : list mmio :=
  concat (map (submission BUF_SIZE bus) slots).

(** A BAR0 word is a writable location of the endpoint [hw] when a read of
    it returns the 32-bit value last written to it. *)
Definition writable_word (hw : list mmio -> Z -> Z) (off : Z) : Prop :=
  forall h v, u32 v -> hw (h ++ [IoWrite off v]) off = v.

(** An op-code that is none of READ, WRITE, START. *)
Definition unknown_op (OP_RD OP_WR OP_SD : Z) (kc : Cmd) : Prop :=
  op kc <> OP_RD /\ op kc <> OP_WR /\ op kc <> OP_SD.

(** ** A test double *)

(** A register file: every word keeps the last value written to it, and
    reads as 0 before any write. *)
Definition hw_regfile (h : list mmio) (off : Z) : Z :=
  fold_left (fun acc e =>
               match e with
               | IoWrite o v => if o =? off then v else acc
               | IoRead _ _ => acc
               end) h 0.

(** The device record as [cdevOpen] leaves it, with an all-zero pool at
    bus address [0x10000]. *)
Definition opened : AlteraDevice :=
  mkAlteraDevice [] (fun _ => Byte.x00) 65536 0 0 0.

(** The same device with counters [(numAvailable, numSubmitted, outIndex)]. *)
Definition with_ring (a s o : Z) : AlteraDevice :=
  set_outIndex o (set_numSubmitted s (set_numAvailable a opened)).

(** A writable user buffer of [n] bytes. *)
Definition user_buffer (n : nat) : list Byte.byte := repeat Byte.xff n.

(** Op-codes for the test double: READ = 0, WRITE = 1, START = 2. *)
Definition RD : Z := 0.
Definition WR : Z := 1.
Definition SD : Z := 2.

(** Command arrays in writable user memory. *)
Definition user_cmds (l : list Cmd) : list ucell :=
  map (fun c => mkucell c true) l.

(** The device after [WRITE(2, 0xDEADBEEF); START] on [with_ring 3 29 5]. *)
Definition configured_started : AlteraDevice :=
  mkAlteraDevice [IoWrite 5 3735928559; IoWrite 1 65536; IoWrite 3 32]
                 (fun _ => Byte.x00) 65536 0 1 0.

(** ** Counting what happened *)

(** An interrupt reaches the driver only for a slot the endpoint holds; a
    [read] is let through here when it is refused for its count or finds a
    frame available (it does not have to wait). *)
Definition plausible (BUF_SIZE : Z) (a : action) (ape : AlteraDevice) : bool :=
  match a with
  | Interrupt => 1 <=? numSubmitted ape
  | Read _ count _ => (count <? BUF_SIZE) || (1 <=? numAvailable ape)
  end.

Fixpoint plausible_run (BUF_SIZE : Z) (acts : list action) (ape : AlteraDevice)
  : bool :=
  match acts with
  | [] => true
  | a :: acts =>
      plausible BUF_SIZE a ape &&
      match step BUF_SIZE a ape with
      | Some ape => plausible_run BUF_SIZE acts ape
      | None => false
      end
  end.

Fixpoint interrupts (acts : list action) : nat :=
  match acts with
  | [] => O
  | Interrupt :: acts => S (interrupts acts)
  | Read _ _ _ :: acts => interrupts acts
  end.

(** The [read] calls that got past the count test. *)
Fixpoint frames_read (BUF_SIZE : Z) (acts : list action) : nat :=
  match acts with
  | [] => O
  | Interrupt :: acts => frames_read BUF_SIZE acts
  | Read _ count _ :: acts =>
      if count <? BUF_SIZE then frames_read BUF_SIZE acts
      else S (frames_read BUF_SIZE acts)
  end.

(** The device [ape] as it stands [i] interrupts and [r] frames read after a
    START that left the accesses [h0]: still as START left it before the
    first interrupt; from then on all [NUM_BUFS] slots are either available
    or submitted, and the slots [1, 2, ...] have been submitted in ring
    order, 31 by the first interrupt and one by each read. *)
Definition ring_after (BUF_SIZE : Z) (h0 : list mmio) (i r : nat)
           (ape : AlteraDevice) : Prop :=
  (i = O /\ r = O /\ ring ape = (0, 1, 0) /\ bar0 ape = h0) \/
  ((1 <= i)%nat /\
   0 <= Z.of_nat i - Z.of_nat r <= NUM_BUFS /\
   numAvailable ape = Z.of_nat i - Z.of_nat r /\
   numSubmitted ape = NUM_BUFS - (Z.of_nat i - Z.of_nat r) /\
   outIndex ape = Z.of_nat r mod NUM_BUFS /\
   bar0 ape = h0 ++ submissions BUF_SIZE (bufferArrayBus ape)
                                (ringSlots 1 (31 + r))).

(** ** Resources of the attach path *)

Inductive resource : Type :=
| R_ape | R_device | R_msi | R_regions | R_irq | R_bar (i : nat)
| R_pool | R_chrdev | R_cdev.

(** The resource a call takes when it succeeds. *)
Definition acquires (e : kevent) : option resource :=
  match e with
  | (kzalloc, true) => Some R_ape
  | (pci_enable_device, true) => Some R_device
  | (pci_enable_msi, true) => Some R_msi
  | (pci_request_regions, true) => Some R_regions
  | (request_irq, true) => Some R_irq
  | (pci_iomap i, true) => Some (R_bar i)
  | (pci_alloc_consistent, true) => Some R_pool
  | (alloc_chrdev_region, true) => Some R_chrdev
  | (cdev_add, true) => Some R_cdev
  | _ => None
  end.

(** The resource a call gives back. *)
Definition releases (e : kevent) : option resource :=
  match fst e with
  | kfree => Some R_ape
  | pci_disable_device => Some R_device
  | pci_disable_msi => Some R_msi
  | pci_release_regions => Some R_regions
  | free_irq => Some R_irq
  | pci_iounmap i => Some (R_bar i)
  | pci_free_consistent => Some R_pool
  | unregister_chrdev_region => Some R_chrdev
  | cdev_del => Some R_cdev
  | _ => None
  end.

Definition acquired (tr : list kevent) : list resource := omap acquires tr.
Definition released (tr : list kevent) : list resource := omap releases tr.

Definition is_device (r : resource) : bool :=
  match r with R_device => true | _ => false end.

(** Whether [pci_request_regions] was called and failed. *)
Definition regions_refused (tr : list kevent) : bool :=
  existsb (fun e => match e with (pci_request_regions, false) => true | _ => false end) tr.

(** The shape of a cell of the user's array: all but the [val] field. *)
Definition shape (c : ucell) : Z * Z * bool := (op (cell c), reg (cell c), writable c).

(** The access a WRITE command makes. *)
Definition write_access (c : Cmd) : mmio :=
  IoWrite (wrap32 (1 + reg c * 2)) (val c).

(** A kernel that grants everything, with BAR0 at [0xF0000000], 4 KiB long. *)
Definition generous : kernel :=
  mkkernel true 0 0 0 (fun _ => 0) 0 (fun _ => 4026531840) (fun _ => 4026535935)
           (fun _ => Some 3735879680) (Some (fun _ => Byte.x00, 65536)) 0 0.

(** A pool in which every byte of slot [i] is the byte [i] (modulo 256),
    for frames of [BUF_SIZE] bytes, and a device that holds such a pool of
    4096-byte frames at bus address [0x10000]. *)
Definition numbered_pool (BUF_SIZE off : Z) : Byte.byte :=
  default Byte.x00 (Strings.Byte.of_N (Z.to_N ((off / BUF_SIZE) mod 256))).

Definition numbered (a s o : Z) : AlteraDevice :=
  mkAlteraDevice [] (numbered_pool 4096) 65536 a s o.

(** A command word for the test double: magic ['k'], number 0, both
    directions, 16 bytes. *)
Definition MAGIC : Z := 107.
Definition MAXNR : Z := 0.
Definition CMDLIST : Z := 3222301440.

(** ** Arithmetic of the counters *)

Lemma wrap32_u32 x : u32 x -> wrap32 x = x.
Proof. unfold u32, wrap32. intros H. apply Z.mod_small. exact H. Qed.

Lemma wrap32_range x : u32 (wrap32 x).
Proof. unfold u32, wrap32. apply Z.mod_pos_bound. reflexivity. Qed.

Lemma wrap32_add_l x y : wrap32 (wrap32 x + y) = wrap32 (x + y).
Proof. unfold wrap32. apply Z.add_mod_idemp_l. discriminate. Qed.

Lemma wrap32_add_r x y : wrap32 (x + wrap32 y) = wrap32 (x + y).
Proof. unfold wrap32. apply Z.add_mod_idemp_r. discriminate. Qed.

Lemma mask_mod x : Z.land (wrap32 x) (NUM_BUFS - 1) = x mod NUM_BUFS.
Proof.
  unfold wrap32. change (NUM_BUFS - 1) with (Z.ones 5).
  rewrite Z.land_ones by lia. change (2 ^ 5) with NUM_BUFS.
  apply Z.mod_mod_divide. exists (2 ^ 27). reflexivity.
Qed.

Lemma ringSlots_mod n : forall from, ringSlots (from mod NUM_BUFS) n = ringSlots from n.
Proof.
  induction n as [|n IH]; intros from; simpl; [reflexivity|].
  rewrite Z.mod_mod by discriminate. f_equal.
  rewrite <- (IH (from mod NUM_BUFS + 1)), <- (IH (from + 1)). f_equal.
  apply Z.add_mod_idemp_l. discriminate.
Qed.

Lemma ringSlots_length n : forall from, length (ringSlots from n) = n.
Proof. induction n as [|n IH]; intros from; simpl; [reflexivity|]. now rewrite IH. Qed.

(** ** Interrupt handler *)

Section Interrupt.

Variable BUF_SIZE : Z.

(** After [n] turns of the refill loop: [n] submissions in ring order, one
    increment of [numSubmitted] for each, nothing else touched. *)
Lemma submitLoop_spec n : forall submitIndex ape,
  0 <= submitIndex < NUM_BUFS ->
  u32 (numSubmitted ape) ->
  submitLoop BUF_SIZE n submitIndex ape =
  mkAlteraDevice
    (bar0 ape ++ submissions BUF_SIZE (bufferArrayBus ape) (ringSlots submitIndex n))
    (bufferArrayVirt ape) (bufferArrayBus ape) (numAvailable ape)
    (wrap32 (numSubmitted ape + Z.of_nat n)) (outIndex ape).
Proof.
  induction n as [|n IH]; intros idx ape Hidx HS.
  - simpl. unfold submissions. simpl. rewrite app_nil_r, Z.add_0_r, wrap32_u32 by exact HS.
    destruct ape; reflexivity.
  - cbn [submitLoop]. rewrite IH.
    + cbn [ringSlots]. unfold submissions. cbn [map concat].
      fold (submissions BUF_SIZE (bufferArrayBus ape)).
      rewrite mask_mod, (ringSlots_mod n (idx + 1)).
      rewrite (Z.mod_small idx) by exact Hidx.
      destruct ape as [h virt bus A S o]. cbn.
      rewrite <- !app_assoc. cbn. f_equal.
      rewrite wrap32_add_l. f_equal. lia.
    + rewrite mask_mod. apply Z.mod_pos_bound. reflexivity.
    + destruct ape; cbn. apply wrap32_range.
Qed.

(** C1.  When at least one slot is submitted and the counters respect
    [numAvailable + numSubmitted <= NUM_BUFS], the interrupt handler, given
    its device, returns "handled" with [numAvailable] one higher, with every
    slot that is Free after the credit submitted to the endpoint in ring
    order, and with [numSubmitted + numAvailable = NUM_BUFS]. *)
Theorem serviceInterrupt_saturates (ape : AlteraDevice) :
  1 <= numSubmitted ape ->
  0 <= numAvailable ape ->
  numAvailable ape + numSubmitted ape <= NUM_BUFS ->
  exists ape',
    serviceInterrupt BUF_SIZE (Some ape) = (IRQ_HANDLED, Some ape') /\
    numAvailable ape' = numAvailable ape + 1 /\
    numSubmitted ape' + numAvailable ape' = NUM_BUFS /\
    outIndex ape' = outIndex ape /\
    bar0 ape' =
      bar0 ape ++ submissions BUF_SIZE (bufferArrayBus ape) (freeSlots (credit ape)) /\
    numSubmitted ape' =
      numSubmitted (credit ape) + Z.of_nat (length (freeSlots (credit ape))).
Proof.
  intros HS HA Hsum. unfold NUM_BUFS in Hsum.
  eexists. split; [reflexivity|].
  destruct ape as [h virt bus A S o]. cbn in HS, HA, Hsum.
  cbn [set_numAvailable set_numSubmitted numAvailable numSubmitted outIndex bar0
       bufferArrayVirt bufferArrayBus].
  assert (HA' : wrap32 (A + 1) = A + 1) by (apply wrap32_u32; unfold u32; lia).
  assert (HS' : wrap32 (S - 1) = S - 1) by (apply wrap32_u32; unfold u32; lia).
  rewrite HA', HS'.
  assert (Hc : wrap32 (NUM_BUFS - (A + 1) - (S - 1)) = NUM_BUFS - (A + 1) - (S - 1))
    by (apply wrap32_u32; unfold u32, NUM_BUFS; lia).
  rewrite Hc, mask_mod, submitLoop_spec.
  - cbn. unfold freeSlots, credit. cbn. rewrite ringSlots_mod, ringSlots_length.
    rewrite Z2Nat.id by (unfold NUM_BUFS; lia).
    rewrite wrap32_u32 by (unfold u32, NUM_BUFS; lia).
    unfold NUM_BUFS. repeat split; lia.
  - apply Z.mod_pos_bound. reflexivity.
  - cbn. unfold u32. lia.
Qed.


End Interrupt.

Lemma serviceInterrupt_saturates_witness :
  exists ape',
    serviceInterrupt 4096 (Some (with_ring 0 1 0)) = (IRQ_HANDLED, Some ape') /\
    numAvailable ape' = 1 /\
    numSubmitted ape' + numAvailable ape' = NUM_BUFS /\
    outIndex ape' = 0 /\
    bar0 ape' =
      submissions 4096 65536 (freeSlots (credit (with_ring 0 1 0))) /\
    numSubmitted ape' = 0 + Z.of_nat (length (freeSlots (credit (with_ring 0 1 0)))).
Proof.
  apply (serviceInterrupt_saturates 4096 (with_ring 0 1 0)); simpl; unfold NUM_BUFS; lia.
Defined.



(** ** Read path *)

Section Read.

Variable BUF_SIZE : Z.

Lemma slot_data_length ape i : length (slot_data BUF_SIZE ape i) = Z.to_nat BUF_SIZE.
Proof. unfold slot_data. now rewrite length_map, length_seq. Qed.

(** A reader that finds a frame available does not sleep. *)
Lemma wait_event_interruptible_ready evs ape :
  0 < numAvailable ape ->
  wait_event_interruptible BUF_SIZE evs ape = Some (0, ape).
Proof.
  intros H. destruct evs; simpl; apply Z.ltb_lt in H; now rewrite H.
Qed.

(** [copy_to_user] returns 0 exactly when the whole frame went out. *)
Lemma copy_to_user_ok buf ape i :
  snd (copy_to_user buf (slot_data BUF_SIZE ape i) BUF_SIZE) = 0 ->
  fst (copy_to_user buf (slot_data BUF_SIZE ape i) BUF_SIZE) =
  slot_data BUF_SIZE ape i ++ drop (Z.to_nat BUF_SIZE) buf.
Proof.
  unfold copy_to_user. cbn [fst snd]. intros H.
  assert (Hk : Nat.min (Z.to_nat BUF_SIZE) (length buf) = Z.to_nat BUF_SIZE) by lia.
  rewrite Hk. f_equal. apply take_ge. rewrite slot_data_length. lia.
Qed.

(** Past the count test [cdevRead] has a single [return]: whatever ends the
    wait and whatever [copy_to_user] returns, a call that returns returns
    [BUF_SIZE]. *)
Lemma cdevRead_results ape buf count evs r ape' buf' :
  BUF_SIZE <= count ->
  cdevRead BUF_SIZE ape buf count evs = Some (r, ape', buf') ->
  r = BUF_SIZE.
Proof.
  intros Hcount. apply Z.ltb_ge in Hcount. unfold cdevRead. rewrite Hcount.
  destruct (wait_event_interruptible BUF_SIZE evs ape) as [[rc a]|]; [|discriminate].
  destruct (copy_to_user buf (slot_data BUF_SIZE a (outIndex a)) BUF_SIZE).
  now intros [= <- _ _].
Qed.

(** The bytes [slot_data] stands for are those of the pool: byte [k] of
    slot [i] is the byte at offset [i * BUF_SIZE + k] of [bufferArrayVirt]. *)
Lemma slot_data_lookup ape i (k : nat) :
  (k < Z.to_nat BUF_SIZE)%nat ->
  slot_data BUF_SIZE ape i !! k = Some (bufferArrayVirt ape (i * BUF_SIZE + Z.of_nat k)).
Proof.
  intros Hk. unfold slot_data, sizeof_Buffer.
  rewrite list_lookup_fmap, lookup_seq_lt by exact Hk. reflexivity.
Qed.

(** C5.  A read that asks for at least [BUF_SIZE] bytes, finds a frame
    available and whose copy to the user succeeds: the user buffer receives
    exactly [BUF_SIZE] bytes, byte [k] being the byte of the pool at offset
    [outIndex * BUF_SIZE + k], that is byte [k] of slot [outIndex], and
    keeps what it held beyond them; that same slot is submitted to the
    endpoint, [numSubmitted] goes up by one (as a [u32]), [outIndex] moves
    to the next slot modulo [NUM_BUFS], [numAvailable] goes down by one,
    and the call returns [BUF_SIZE]. *)
Theorem cdevRead_delivers ape buf count evs :
  BUF_SIZE <= count ->
  0 < numAvailable ape ->
  u32 (numAvailable ape) ->
  snd (copy_to_user buf (slot_data BUF_SIZE ape (outIndex ape)) BUF_SIZE) = 0 ->
  exists ape' buf',
    cdevRead BUF_SIZE ape buf count evs = Some (BUF_SIZE, ape', buf') /\
    buf' = slot_data BUF_SIZE ape (outIndex ape) ++ drop (Z.to_nat BUF_SIZE) buf /\
    length (slot_data BUF_SIZE ape (outIndex ape)) = Z.to_nat BUF_SIZE /\
    length buf' = length buf /\
    (forall k : nat, (k < Z.to_nat BUF_SIZE)%nat ->
       buf' !! k = Some (bufferArrayVirt ape (outIndex ape * BUF_SIZE + Z.of_nat k))) /\
    (forall k : nat, (Z.to_nat BUF_SIZE <= k)%nat -> buf' !! k = buf !! k) /\
    bar0 ape' = bar0 ape ++ submission BUF_SIZE (bufferArrayBus ape) (outIndex ape) /\
    numSubmitted ape' = wrap32 (numSubmitted ape + 1) /\
    (0 <= numSubmitted ape < 2 ^ 32 - 1 ->
     numSubmitted ape' = numSubmitted ape + 1) /\
    outIndex ape' = (outIndex ape + 1) mod NUM_BUFS /\
    numAvailable ape' = numAvailable ape - 1.
Proof.
  intros Hcount HA HAu Hcopy.
  unfold cdevRead.
  assert (Hc : (count <? BUF_SIZE) = false) by (apply Z.ltb_ge; exact Hcount).
  rewrite Hc, wait_event_interruptible_ready by exact HA.
  pose proof (copy_to_user_ok buf ape (outIndex ape) Hcopy) as Hbuf.
  assert (Hfits : (Z.to_nat BUF_SIZE <= length buf)%nat).
  { unfold copy_to_user in Hcopy. cbn [snd] in Hcopy. lia. }
  destruct (copy_to_user buf (slot_data BUF_SIZE ape (outIndex ape)) BUF_SIZE)
    as [buf' rc] eqn:E.
  cbn [fst snd] in Hbuf, Hcopy. subst buf'.
  eexists. eexists. split; [reflexivity|].
  split; [reflexivity|].
  split; [apply slot_data_length|].
  split.
  { rewrite length_app, slot_data_length, length_drop. lia. }
  split.
  { intros k Hk. rewrite lookup_app_l by (rewrite slot_data_length; exact Hk).
    apply slot_data_lookup. exact Hk. }
  split.
  { intros k Hk. rewrite lookup_app_r by (rewrite slot_data_length; exact Hk).
    rewrite slot_data_length, lookup_drop. f_equal. lia. }
  destruct ape as [h virt bus A S o]. cbn in HA, HAu |- *.
  rewrite <- !app_assoc. cbn.
  repeat split.
  - intros HS. apply wrap32_u32. unfold u32. lia.
  - apply mask_mod.
  - apply wrap32_u32. unfold u32 in *. lia.
Qed.

(** C6.  A read that asks for fewer than [BUF_SIZE] bytes fails with
    "invalid argument"; the device record, and so the three ring counters,
    and the user buffer are as before the call. *)
Theorem cdevRead_short_count ape buf count evs :
  count < BUF_SIZE ->
  cdevRead BUF_SIZE ape buf count evs = Some (- EINVAL, ape, buf) /\
  forall r ape' buf',
    cdevRead BUF_SIZE ape buf count evs = Some (r, ape', buf') ->
    r = - EINVAL /\ ring ape' = ring ape /\ bar0 ape' = bar0 ape /\ buf' = buf.
Proof.
  intros H. apply Z.ltb_lt in H. unfold cdevRead. rewrite H.
  split; [reflexivity|].
  intros r ape' buf' E. injection E as <- <- <-. repeat split.
Qed.

End Read.

Lemma cdevRead_delivers_witness :
  exists ape' buf',
    cdevRead 4096 (numbered 1 31 3) (user_buffer 4100) 4096 [] =
      Some (4096, ape', buf') /\
    buf' = slot_data 4096 (numbered 1 31 3) 3 ++ drop (Z.to_nat 4096) (user_buffer 4100) /\
    length (slot_data 4096 (numbered 1 31 3) 3) = Z.to_nat 4096 /\
    length buf' = length (user_buffer 4100) /\
    (forall k : nat, (k < Z.to_nat 4096)%nat ->
       buf' !! k = Some (numbered_pool 4096 (3 * 4096 + Z.of_nat k))) /\
    (forall k : nat, (Z.to_nat 4096 <= k)%nat -> buf' !! k = user_buffer 4100 !! k) /\
    bar0 ape' = submission 4096 65536 3 /\
    numSubmitted ape' = wrap32 (31 + 1) /\
    (0 <= 31 < 2 ^ 32 - 1 -> numSubmitted ape' = 31 + 1) /\
    outIndex ape' = (3 + 1) mod NUM_BUFS /\
    numAvailable ape' = 1 - 1.
Proof.
  apply (cdevRead_delivers 4096 (numbered 1 31 3) (user_buffer 4100) 4096 []).
  - lia.
  - simpl. lia.
  - simpl. unfold u32. lia.
  - vm_compute. reflexivity.
Defined.

(** The same read, evaluated: in a pool whose slot [i] is filled with the
    byte [i], a read at [outIndex = 3] hands the user 4096 bytes [0x03] and
    leaves the last four bytes of a 4100-byte buffer as they were. *)
Lemma cdevRead_delivers_slot3 :
  exists ape',
    cdevRead 4096 (numbered 1 31 3) (user_buffer 4100) 4096 [] =
      Some (4096, ape', repeat Byte.x03 4096 ++ repeat Byte.xff 4) /\
    ring ape' = (0, 32, 4).
Proof.
  eexists. split; [vm_compute; reflexivity|]. reflexivity.
Qed.

Lemma cdevRead_short_count_witness :
  cdevRead 4096 (with_ring 1 31 0) (user_buffer 4096) 4095 [] =
    Some (- EINVAL, with_ring 1 31 0, user_buffer 4096) /\
  forall r ape' buf',
    cdevRead 4096 (with_ring 1 31 0) (user_buffer 4096) 4095 [] = Some (r, ape', buf') ->
    r = - EINVAL /\ ring ape' = ring (with_ring 1 31 0) /\
    bar0 ape' = bar0 (with_ring 1 31 0) /\ buf' = user_buffer 4096.
Proof.
  apply (cdevRead_short_count 4096 (with_ring 1 31 0) (user_buffer 4096) 4095 []). lia.
Defined.

(** C3, on the code.  The device has been opened and nothing is available;
    a signal ends the reader's wait.  [wait_event_interruptible] returns
    [-ERESTARTSYS], yet [cdevRead] goes on: it copies slot 0 to the user,
    submits slot 0, returns [BUF_SIZE], and [numAvailable] wraps to
    [2^32 - 1]. *)
Lemma cdevRead_signal_ignored :
  wait_event_interruptible 4096 [Sig] opened = Some (- ERESTARTSYS, opened) /\
  exists ape',
    cdevRead 4096 opened (user_buffer 4096) 4096 [Sig] =
      Some (4096, ape', slot_data 4096 opened 0) /\
    ring ape' = (4294967295, 1, 1) /\
    bar0 ape' = submission 4096 65536 0.
Proof.
  split; [reflexivity|].
  eexists. split; [vm_compute; reflexivity|]. split; reflexivity.
Qed.

(** C4, on the code.  One frame is available and the user's buffer has no
    writable byte: [copy_to_user] leaves all [BUF_SIZE] bytes uncopied, yet
    [cdevRead] returns [BUF_SIZE], submits slot 0 again, advances [outIndex]
    and takes the frame off [numAvailable]. *)
Lemma cdevRead_fault_ignored :
  copy_to_user [] (slot_data 4096 (with_ring 1 31 0) 0) 4096 = ([], 4096) /\
  exists ape',
    cdevRead 4096 (with_ring 1 31 0) [] 4096 [] = Some (4096, ape', []) /\
    ring ape' = (0, 32, 1) /\
    bar0 ape' = submission 4096 65536 0.
Proof.
  split; [vm_compute; reflexivity|].
  eexists. split; [vm_compute; reflexivity|]. split; reflexivity.
Qed.

(** ** Control path *)

Section Control.

Variable BUF_SIZE : Z.
Variables OP_RD OP_WR OP_SD : Z.
Variable hw : list mmio -> Z -> Z.

Local Abbreviation turnAt := (execCmd BUF_SIZE OP_RD OP_WR OP_SD hw).
Local Abbreviation batch := (cmdListLoop BUF_SIZE OP_RD OP_WR OP_SD hw).

Lemma put_user_below v umem ucp umem' j :
  put_user v umem ucp = Some umem' -> j <> ucp -> umem' !! j = umem !! j.
Proof.
  unfold put_user. destruct (umem !! ucp) as [c|]; [|discriminate].
  destruct (writable c); [|discriminate].
  intros [= <-] Hne. apply list_lookup_insert_ne. congruence.
Qed.

(** A turn that makes [cdevIOCtl] return: the result is [-EFAULT], the
    counters and the user's array are as the turn found them, and the
    endpoint has seen at most the read of a READ whose write-back faulted. *)
Lemma execCmd_Return ucp ape umem rc ape' umem' :
  turnAt ucp ape umem = Return rc ape' umem' ->
  rc = - EFAULT /\ umem' = umem /\ ring ape' = ring ape /\
  (bar0 ape' = bar0 ape \/
   exists off, bar0 ape' = bar0 ape ++ [IoRead off (hw (bar0 ape) off)]).
Proof.
  unfold execCmd.
  destruct (copy_from_user umem ucp) as [kc|].
  - destruct (op kc =? OP_RD).
    + cbn [ioread32]. destruct (put_user _ umem ucp); [discriminate|].
      intros [= <- <- <-]. repeat split. right. eexists. reflexivity.
    + destruct (op kc =? OP_WR); [discriminate|].
      destruct (op kc =? OP_SD); [discriminate|].
      intros [= <- <- <-]. repeat split. now left.
  - intros [= <- <- <-]. repeat split. now left.
Qed.

(** A turn only appends to the accesses the endpoint has seen, and only
    touches the cell [ucp] of the user's array. *)
Lemma execCmd_Continue ucp ape umem ape' umem' :
  turnAt ucp ape umem = Continue ape' umem' ->
  (exists more, bar0 ape' = bar0 ape ++ more) /\
  (forall j, j <> ucp -> umem' !! j = umem !! j).
Proof.
  unfold execCmd.
  destruct (copy_from_user umem ucp) as [kc|]; [|discriminate].
  destruct (op kc =? OP_RD).
  - cbn [ioread32]. destruct (put_user _ umem ucp) as [u|] eqn:E; [|discriminate].
    intros [= <- <-]. split.
    + eexists. reflexivity.
    + intros j Hj. eapply put_user_below; eassumption.
  - destruct (op kc =? OP_WR).
    + intros [= <- <-]. split; [eexists; reflexivity | reflexivity].
    + destruct (op kc =? OP_SD); [|discriminate].
      intros [= <- <-]. split; [|reflexivity].
      eexists. cbn. rewrite <- app_assoc. reflexivity.
Qed.

Lemma cmdListLoop_rc n : forall ucp ape umem rc ape' umem',
  batch n ucp ape umem = (rc, ape', umem') -> rc = 0 \/ rc = - EFAULT.
Proof.
  induction n as [|n IH]; intros ucp ape umem rc ape' umem'; simpl.
  - intros [= <- _ _]. now left.
  - destruct (turnAt ucp ape umem) as [a u|r a u] eqn:E.
    + apply IH.
    + intros [= <- <- <-]. right. now apply execCmd_Return in E.
Qed.

(** The batch does its commands one after the other: when the first [k]
    run through, the rest runs from the state they leave. *)
Lemma cmdListLoop_app k : forall m ucp ape umem ape_k umem_k,
  batch k ucp ape umem = (0, ape_k, umem_k) ->
  batch (k + m) ucp ape umem = batch m (ucp + k) ape_k umem_k.
Proof.
  induction k as [|k IH]; intros m ucp ape umem ape_k umem_k; simpl.
  - intros [= <- <-]. now rewrite Nat.add_0_r.
  - destruct (turnAt ucp ape umem) as [a u|r a u] eqn:E.
    + intros H. rewrite (IH m _ _ _ _ _ H). f_equal. lia.
    + intros [= -> <- <-]. apply execCmd_Return in E. destruct E as [E _].
      discriminate E.
Qed.

Lemma cmdListLoop_trace n : forall ucp ape umem rc ape' umem',
  batch n ucp ape umem = (rc, ape', umem') ->
  (exists more, bar0 ape' = bar0 ape ++ more) /\
  (forall j, (j < ucp)%nat -> umem' !! j = umem !! j).
Proof.
  induction n as [|n IH]; intros ucp ape umem rc ape' umem'; simpl.
  - intros [= _ <- <-]. split; [exists []; now rewrite app_nil_r | reflexivity].
  - destruct (turnAt ucp ape umem) as [a u|r a u] eqn:E.
    + intros H. apply IH in H. destruct H as [[more2 H2] Hu].
      apply execCmd_Continue in E. destruct E as [[more1 H1] Hu1]. split.
      * exists (more1 ++ more2). now rewrite H2, H1, app_assoc.
      * intros j Hj. rewrite Hu by lia. apply Hu1. lia.
    + intros [= <- <- <-]. apply execCmd_Return in E.
      destruct E as (_ & -> & _ & [Hb | [off Hb]]).
      * split; [exists []; now rewrite app_nil_r | reflexivity].
      * split; [eexists; exact Hb | reflexivity].
Qed.

(** C7.  A START command, whatever the ring state: the turn goes on with
    [numAvailable = 0], [outIndex = 0] and [numSubmitted = 1], the endpoint
    having been given slot 0, that is the pool's base bus address in the DMA
    base register and then [BUF_SIZE / 128] in the DMA control register.  A
    batch made of that one command returns 0. *)
Theorem execCmd_start ucp ape umem kc :
  copy_from_user umem ucp = Some kc ->
  op kc = OP_SD ->
  OP_SD <> OP_RD ->
  OP_SD <> OP_WR ->
  exists ape',
    turnAt ucp ape umem = Continue ape' umem /\
    batch 1 ucp ape umem = (0, ape', umem) /\
    numAvailable ape' = 0 /\
    outIndex ape' = 0 /\
    numSubmitted ape' = 1 /\
    bar0 ape' = bar0 ape ++ [IoWrite 1 (wrap32 (bufferArrayBus ape));
                             IoWrite 3 (wrap32 (BUF_SIZE ÷ 128))] /\
    bar0 ape' = bar0 ape ++ submission BUF_SIZE (bufferArrayBus ape) 0.
Proof.
  intros Hkc Hop Hrd Hwr.
  assert (E : turnAt ucp ape umem =
              Continue (submitDmaReq (set_numSubmitted 1 (set_numAvailable 0 (set_outIndex 0 ape)))
                                     (bufferArrayBus ape) (BUF_SIZE ÷ 128)) umem).
  { unfold execCmd. rewrite Hkc, Hop.
    apply Z.eqb_neq in Hrd, Hwr. rewrite Hrd, Hwr, Z.eqb_refl.
    destruct ape; reflexivity. }
  eexists. split; [exact E|].
  split; [cbn [cmdListLoop]; rewrite E; reflexivity|].
  destruct ape as [h virt bus A S o]. cbn. rewrite <- !app_assoc. cbn.
  unfold submission. rewrite Z.mul_0_l, Z.add_0_r. repeat split.
Qed.

(** C8.  A batch whose first [k] commands run through and whose next
    command has an op-code that is none of READ, WRITE, START returns
    "bad address", in the state those [k] commands left.  A batch made of
    that command alone returns "bad address" and changes nothing: not the
    device record, so neither the counters nor what the endpoint has seen,
    and not the user's array. *)
Theorem cmdList_unknown_op numCmds k ucp ape umem ape_k umem_k kc :
  (k < numCmds)%nat ->
  batch k ucp ape umem = (0, ape_k, umem_k) ->
  copy_from_user umem_k (ucp + k) = Some kc ->
  unknown_op OP_RD OP_WR OP_SD kc ->
  batch numCmds ucp ape umem = (- EFAULT, ape_k, umem_k) /\
  batch 1 (ucp + k) ape_k umem_k = (- EFAULT, ape_k, umem_k).
Proof.
  intros Hk Hpre Hkc (Hrd & Hwr & Hsd).
  assert (E : turnAt (ucp + k) ape_k umem_k = Return (- EFAULT) ape_k umem_k).
  { unfold execCmd. rewrite Hkc.
    apply Z.eqb_neq in Hrd, Hwr, Hsd. now rewrite Hrd, Hwr, Hsd. }
  split.
  - replace numCmds with (k + S (numCmds - k - 1))%nat by lia.
    rewrite (cmdListLoop_app _ _ _ _ _ _ _ Hpre). cbn [cmdListLoop]. now rewrite E.
  - cbn [cmdListLoop]. now rewrite E.
Qed.

(** C9.  In a batch whose first [k] commands run through and are followed
    by WRITE(reg, v) and then READ(reg), [reg] below [2^31] and [v] a
    32-bit value: when word [2 * reg + 1] of BAR0 is a writable location and
    the READ's cell of the user's array is writable, the batch ends with [v]
    in the [val] field of that cell, the endpoint having seen the write of
    [v] to word [2 * reg + 1] and then the read of that word. *)
Theorem cmdList_write_then_read numCmds k ucp ape umem ape_k umem_k r v w v0 :
  (k + 1 < numCmds)%nat ->
  batch k ucp ape umem = (0, ape_k, umem_k) ->
  umem_k !! (ucp + k)%nat = Some (mkucell (mkCmd OP_WR r v) w) ->
  umem_k !! S (ucp + k) = Some (mkucell (mkCmd OP_RD r v0) true) ->
  OP_WR <> OP_RD ->
  0 <= r < 2 ^ 31 ->
  u32 v ->
  writable_word hw (2 * r + 1) ->
  exists rc ape' umem' more,
    batch numCmds ucp ape umem = (rc, ape', umem') /\
    umem' !! S (ucp + k) = Some (mkucell (mkCmd OP_RD r v) true) /\
    bar0 ape' =
      bar0 ape_k ++ [IoWrite (2 * r + 1) v; IoRead (2 * r + 1) v] ++ more.
Proof.
  intros Hk Hpre Hw Hr Hne Hreg Hv Hhw.
  assert (Hoff : regSpace + wrap32 (1 + r * 2) = 2 * r + 1).
  { unfold regSpace. rewrite wrap32_u32 by (unfold u32; lia). lia. }
  replace numCmds with (k + S (S (numCmds - k - 2)))%nat by lia.
  rewrite (cmdListLoop_app _ _ _ _ _ _ _ Hpre).
  cbn [cmdListLoop]. unfold execCmd at 1. unfold copy_from_user at 1.
  rewrite Hw. cbn [fmap option_fmap option_map cell op reg val].
  apply Z.eqb_neq in Hne. rewrite Hne, Z.eqb_refl, Hoff.
  unfold execCmd at 1. unfold copy_from_user at 1.
  rewrite Hr. cbn [fmap option_fmap option_map cell op reg val].
  rewrite Z.eqb_refl, Hoff. cbn [ioread32 iowrite32 set_bar0 bar0].
  rewrite Hhw by exact Hv.
  unfold put_user. rewrite Hr. cbn [writable cell op reg].
  match goal with
  | |- context [cmdListLoop _ _ _ _ _ ?n ?p ?a ?u] =>
      destruct (cmdListLoop BUF_SIZE OP_RD OP_WR OP_SD hw n p a u)
        as [[rc ape'] umem'] eqn:E
  end.
  apply cmdListLoop_trace in E. destruct E as [[more Hb] Hu].
  exists rc, ape', umem', more. split; [reflexivity|]. split.
  - rewrite Hu by lia. apply list_lookup_insert_eq.
    apply lookup_lt_Some in Hr. exact Hr.
  - rewrite Hb. cbn. rewrite <- !app_assoc. reflexivity.
Qed.

(** C10.  A batch whose first [k] commands run through and whose next
    command makes [cdevIOCtl] return (its cell cannot be read, its op-code
    is unknown, or the write-back of a READ faults) returns "bad address"
    and leaves everything as the first [k] commands left it: the counters
    (so the reset of a START), the user's array (so the write-backs of the
    READs), and what the endpoint has seen (so the WRITEs and a START's
    submission), to which only the read of the failing READ can be added. *)
Theorem cmdList_not_atomic numCmds k ucp ape umem ape_k umem_k rc ape_f umem_f :
  (k < numCmds)%nat ->
  batch k ucp ape umem = (0, ape_k, umem_k) ->
  turnAt (ucp + k) ape_k umem_k = Return rc ape_f umem_f ->
  batch numCmds ucp ape umem = (- EFAULT, ape_f, umem_f) /\
  umem_f = umem_k /\
  ring ape_f = ring ape_k /\
  (bar0 ape_f = bar0 ape_k \/
   exists off, bar0 ape_f = bar0 ape_k ++ [IoRead off (hw (bar0 ape_k) off)]) /\
  (exists done, bar0 ape_k = bar0 ape ++ done) /\
  (forall j, (j < ucp)%nat -> umem_k !! j = umem !! j).
Proof.
  intros Hk Hpre E.
  pose proof (execCmd_Return _ _ _ _ _ _ E) as (-> & Hu & Hring & Hbar).
  pose proof (cmdListLoop_trace _ _ _ _ _ _ _ Hpre) as [Hdone Hlow].
  repeat split; try assumption.
  replace numCmds with (k + S (numCmds - k - 1))%nat by lia.
  rewrite (cmdListLoop_app _ _ _ _ _ _ _ Hpre). cbn [cmdListLoop]. now rewrite E.
Qed.

End Control.

Lemma hw_regfile_writable off : writable_word hw_regfile off.
Proof.
  intros h v _. unfold hw_regfile. rewrite fold_left_app. cbn.
  now rewrite Z.eqb_refl.
Qed.

(** START while three frames are available and 29 slots are submitted. *)
Lemma execCmd_start_witness :
  exists ape',
    execCmd 4096 RD WR SD hw_regfile 0 (with_ring 3 29 5) (user_cmds [mkCmd SD 0 0]) =
      Continue ape' (user_cmds [mkCmd SD 0 0]) /\
    cmdListLoop 4096 RD WR SD hw_regfile 1 0 (with_ring 3 29 5) (user_cmds [mkCmd SD 0 0]) =
      (0, ape', user_cmds [mkCmd SD 0 0]) /\
    numAvailable ape' = 0 /\
    outIndex ape' = 0 /\
    numSubmitted ape' = 1 /\
    bar0 ape' = [IoWrite 1 (wrap32 65536); IoWrite 3 (wrap32 (4096 ÷ 128))] /\
    bar0 ape' = submission 4096 65536 0.
Proof.
  apply (execCmd_start 4096 RD WR SD hw_regfile 0 (with_ring 3 29 5)
                       (user_cmds [mkCmd SD 0 0]) (mkCmd SD 0 0)).
  - reflexivity.
  - reflexivity.
  - discriminate.
  - discriminate.
Defined.

(** The one-command batch [{op=99, reg=0, val=0}]. *)
Lemma cmdList_unknown_op_witness :
  cmdListLoop 4096 RD WR SD hw_regfile 1 0 (with_ring 3 29 5) (user_cmds [mkCmd 99 0 0]) =
    (- EFAULT, with_ring 3 29 5, user_cmds [mkCmd 99 0 0]) /\
  cmdListLoop 4096 RD WR SD hw_regfile 1 (0 + 0) (with_ring 3 29 5) (user_cmds [mkCmd 99 0 0]) =
    (- EFAULT, with_ring 3 29 5, user_cmds [mkCmd 99 0 0]).
Proof.
  apply (cmdList_unknown_op 4096 RD WR SD hw_regfile 1 0 0 (with_ring 3 29 5)
                            (user_cmds [mkCmd 99 0 0]) (with_ring 3 29 5)
                            (user_cmds [mkCmd 99 0 0]) (mkCmd 99 0 0)).
  - lia.
  - reflexivity.
  - reflexivity.
  - unfold unknown_op, RD, WR, SD. simpl. lia.
Defined.

(** The batch [WRITE(5, 0x1234); READ(5)]: the caller finds [0x1234] in
    [cmds[1].val]. *)
Lemma cmdList_write_then_read_witness :
  exists rc ape' umem' more,
    cmdListLoop 4096 RD WR SD hw_regfile 2 0 opened
                (user_cmds [mkCmd WR 5 4660; mkCmd RD 5 0]) = (rc, ape', umem') /\
    umem' !! S (0 + 0) = Some (mkucell (mkCmd RD 5 4660) true) /\
    bar0 ape' = bar0 opened ++ [IoWrite (2 * 5 + 1) 4660; IoRead (2 * 5 + 1) 4660] ++ more.
Proof.
  apply (cmdList_write_then_read 4096 RD WR SD hw_regfile 2 0 0 opened
           (user_cmds [mkCmd WR 5 4660; mkCmd RD 5 0]) opened
           (user_cmds [mkCmd WR 5 4660; mkCmd RD 5 0]) 5 4660 true 0).
  - lia.
  - reflexivity.
  - reflexivity.
  - reflexivity.
  - discriminate.
  - lia.
  - unfold u32. lia.
  - apply hw_regfile_writable.
Defined.

(** The batch [WRITE(2, 0xDEADBEEF); START; {op=99}] fails on its third
    command; the register write, the reset of the counters and the
    submission of slot 0 stay. *)
Lemma cmdList_not_atomic_witness :
  cmdListLoop 4096 RD WR SD hw_regfile 3 0 (with_ring 3 29 5)
              (user_cmds [mkCmd WR 2 3735928559; mkCmd SD 0 0; mkCmd 99 0 0]) =
    (- EFAULT, configured_started,
     user_cmds [mkCmd WR 2 3735928559; mkCmd SD 0 0; mkCmd 99 0 0]) /\
  user_cmds [mkCmd WR 2 3735928559; mkCmd SD 0 0; mkCmd 99 0 0] =
    user_cmds [mkCmd WR 2 3735928559; mkCmd SD 0 0; mkCmd 99 0 0] /\
  ring configured_started = ring configured_started /\
  (bar0 configured_started = bar0 configured_started \/
   exists off, bar0 configured_started =
               bar0 configured_started ++ [IoRead off (hw_regfile (bar0 configured_started) off)]) /\
  (exists done, bar0 configured_started = bar0 (with_ring 3 29 5) ++ done) /\
  (forall j, (j < 0)%nat ->
     user_cmds [mkCmd WR 2 3735928559; mkCmd SD 0 0; mkCmd 99 0 0] !! j =
     user_cmds [mkCmd WR 2 3735928559; mkCmd SD 0 0; mkCmd 99 0 0] !! j).
Proof.
  apply (cmdList_not_atomic 4096 RD WR SD hw_regfile 3 2 0 (with_ring 3 29 5)
           (user_cmds [mkCmd WR 2 3735928559; mkCmd SD 0 0; mkCmd 99 0 0])
           configured_started
           (user_cmds [mkCmd WR 2 3735928559; mkCmd SD 0 0; mkCmd 99 0 0])
           (- EFAULT) configured_started
           (user_cmds [mkCmd WR 2 3735928559; mkCmd SD 0 0; mkCmd 99 0 0])).
  - lia.
  - reflexivity.
  - reflexivity.
Defined.

(** ** More on the ring *)

Ltac fields :=
  cbn [numAvailable numSubmitted outIndex bar0 bufferArrayBus bufferArrayVirt
       fst snd] in *.

Lemma ringSlots_app n : forall from m,
  ringSlots from (n + m) = ringSlots from n ++ ringSlots (from + Z.of_nat n) m.
Proof.
  induction n as [|n IH]; intros from m.
  - simpl. now rewrite Z.add_0_r.
  - cbn [ringSlots Nat.add app]. rewrite IH. do 3 f_equal. lia.
Qed.

Lemma submissions_app BUF_SIZE bus l1 l2 :
  submissions BUF_SIZE bus (l1 ++ l2) =
  submissions BUF_SIZE bus l1 ++ submissions BUF_SIZE bus l2.
Proof. unfold submissions. now rewrite map_app, concat_app. Qed.

Lemma submissions_one BUF_SIZE bus from :
  submissions BUF_SIZE bus (ringSlots from 1) = submission BUF_SIZE bus (from mod NUM_BUFS).
Proof. unfold submissions. cbn [ringSlots map concat]. apply app_nil_r. Qed.

Section Ring.

Variable BUF_SIZE : Z.

(** The handler in closed form, for any counters. *)
Lemma serviceInterrupt_eq ape :
  serviceInterrupt BUF_SIZE (Some ape) =
  (IRQ_HANDLED,
   Some (mkAlteraDevice
           (bar0 ape ++
            submissions BUF_SIZE (bufferArrayBus ape)
              (ringSlots (outIndex ape + wrap32 (numAvailable ape + 1))
                 (Z.to_nat (wrap32 (NUM_BUFS - wrap32 (numAvailable ape + 1)
                                    - wrap32 (numSubmitted ape - 1))))))
           (bufferArrayVirt ape) (bufferArrayBus ape)
           (wrap32 (numAvailable ape + 1))
           (wrap32 (NUM_BUFS - wrap32 (numAvailable ape + 1)))
           (outIndex ape))).
Proof.
  destruct ape as [h virt bus A S o]. unfold serviceInterrupt.
  cbn [set_numAvailable set_numSubmitted numAvailable numSubmitted outIndex bar0
       bufferArrayVirt bufferArrayBus].
  rewrite mask_mod, submitLoop_spec.
  - cbn [bar0 bufferArrayVirt bufferArrayBus numAvailable numSubmitted outIndex
         set_numAvailable set_numSubmitted].
    rewrite ringSlots_mod. do 3 f_equal.
    rewrite Z2Nat.id by apply wrap32_range.
    rewrite wrap32_add_r. f_equal. lia.
  - apply Z.mod_pos_bound. reflexivity.
  - cbn. apply wrap32_range.
Qed.

(** A read that gets past the count test and finds a frame, in closed form. *)
Lemma cdevRead_eq ape buf count evs :
  BUF_SIZE <= count ->
  0 < numAvailable ape ->
  cdevRead BUF_SIZE ape buf count evs =
  Some (BUF_SIZE,
        mkAlteraDevice
          (bar0 ape ++ submission BUF_SIZE (bufferArrayBus ape) (outIndex ape))
          (bufferArrayVirt ape) (bufferArrayBus ape)
          (wrap32 (numAvailable ape - 1))
          (wrap32 (numSubmitted ape + 1))
          ((outIndex ape + 1) mod NUM_BUFS),
        fst (copy_to_user buf (slot_data BUF_SIZE ape (outIndex ape)) BUF_SIZE)).
Proof.
  intros Hcount HA. unfold cdevRead.
  apply Z.ltb_ge in Hcount. rewrite Hcount.
  rewrite wait_event_interruptible_ready by exact HA.
  destruct (copy_to_user buf (slot_data BUF_SIZE ape (outIndex ape)) BUF_SIZE)
    as [buf' rc].
  destruct ape as [h virt bus A S o].
  unfold set_numAvailable, set_outIndex, set_numSubmitted, submitDmaReq, iowrite32,
    set_bar0, submission, sizeof_Buffer.
  cbn. rewrite <- !app_assoc. cbn.
  now rewrite mask_mod.
Qed.

(** X1.  Whatever the counters, the handler given its device answers
    "handled", counts one more available slot, leaves [outIndex], the pool
    and its bus address alone, and makes no access to BAR0 other than the
    submissions of [NUM_BUFS - numAvailable - numSubmitted] (a [u32], taken
    after the credit) consecutive slots from [outIndex + numAvailable]; on
    exit [numSubmitted] is [NUM_BUFS - numAvailable] modulo [2^32]. *)
Theorem serviceInterrupt_always (ape : AlteraDevice) :
  exists ape',
    serviceInterrupt BUF_SIZE (Some ape) = (IRQ_HANDLED, Some ape') /\
    numAvailable ape' = wrap32 (numAvailable ape + 1) /\
    numSubmitted ape' = wrap32 (NUM_BUFS - numAvailable ape') /\
    outIndex ape' = outIndex ape /\
    bufferArrayBus ape' = bufferArrayBus ape /\
    bufferArrayVirt ape' = bufferArrayVirt ape /\
    bar0 ape' =
      bar0 ape ++
      submissions BUF_SIZE (bufferArrayBus ape)
        (ringSlots (outIndex ape + numAvailable ape')
           (Z.to_nat (wrap32 (NUM_BUFS - numAvailable ape'
                              - wrap32 (numSubmitted ape - 1))))).
Proof.
  eexists. split; [apply serviceInterrupt_eq|]. cbn. repeat split.
Qed.

(** X2.  Once every slot is either available or submitted, an interrupt
    for a submitted slot is a credit and nothing more: one slot moves from
    submitted to available and the endpoint is not touched. *)
Theorem serviceInterrupt_saturated (ape : AlteraDevice) :
  0 <= numAvailable ape ->
  1 <= numSubmitted ape ->
  numAvailable ape + numSubmitted ape = NUM_BUFS ->
  serviceInterrupt BUF_SIZE (Some ape) = (IRQ_HANDLED, Some (credit ape)).
Proof.
  intros HA HS Hsum. unfold NUM_BUFS in Hsum. rewrite serviceInterrupt_eq.
  destruct ape as [h virt bus A S o]. cbn in HA, HS, Hsum |- *.
  assert (HA' : wrap32 (A + 1) = A + 1) by (apply wrap32_u32; unfold u32; lia).
  assert (HS' : wrap32 (S - 1) = S - 1) by (apply wrap32_u32; unfold u32; lia).
  rewrite HA', HS'.
  replace (NUM_BUFS - (A + 1) - (S - 1)) with 0 by (unfold NUM_BUFS; lia).
  replace (wrap32 (NUM_BUFS - (A + 1))) with (S - 1)
    by (rewrite wrap32_u32; unfold u32, NUM_BUFS; lia).
  cbn. now rewrite app_nil_r.
Qed.

(** X3.  [cdevOpen] zeroes the counters without a word to the endpoint, so
    an interrupt that arrives after it, for a slot submitted before it,
    finds nothing submitted: whatever the device record was, the handler
    then submits all 32 slots, slot 1 first and slot 0 last, and leaves the
    counters at (1, 31, 0). *)
Theorem cdevOpen_then_interrupt (ape : AlteraDevice) :
  exists ape',
    serviceInterrupt BUF_SIZE (Some (snd (cdevOpen ape))) = (IRQ_HANDLED, Some ape') /\
    bar0 (snd (cdevOpen ape)) = bar0 ape /\
    ring ape' = (1, 31, 0) /\
    bar0 ape' = bar0 ape ++ submissions BUF_SIZE (bufferArrayBus ape) (ringSlots 1 32).
Proof.
  eexists. split; [apply serviceInterrupt_eq|].
  destruct ape as [h virt bus A S o]. cbn. repeat split.
Qed.

(** X4.  A read that gets past the count test and finds a frame consumes
    it, whatever arrives while it runs and whether or not [copy_to_user]
    could copy: it returns [BUF_SIZE], submits slot [outIndex] again, moves
    [outIndex] on, and the sum of [numAvailable] and [numSubmitted] is
    what it was. *)
Theorem cdevRead_consumes ape buf count evs :
  BUF_SIZE <= count ->
  1 <= numAvailable ape ->
  u32 (numAvailable ape) ->
  0 <= numSubmitted ape < 2 ^ 32 - 1 ->
  exists ape',
    cdevRead BUF_SIZE ape buf count evs =
      Some (BUF_SIZE, ape',
            fst (copy_to_user buf (slot_data BUF_SIZE ape (outIndex ape)) BUF_SIZE)) /\
    ring ape' =
      (numAvailable ape - 1, numSubmitted ape + 1, (outIndex ape + 1) mod NUM_BUFS) /\
    numAvailable ape' + numSubmitted ape' = numAvailable ape + numSubmitted ape /\
    0 <= outIndex ape' < NUM_BUFS /\
    bar0 ape' = bar0 ape ++ submission BUF_SIZE (bufferArrayBus ape) (outIndex ape).
Proof.
  intros Hcount HA HAu HS.
  eexists. split; [apply cdevRead_eq; lia|].
  unfold ring. cbn. unfold u32 in HAu.
  rewrite !wrap32_u32 by (unfold u32; lia).
  repeat split; try lia; apply Z.mod_pos_bound; reflexivity.
Qed.

End Ring.

Lemma serviceInterrupt_saturated_witness :
  serviceInterrupt 4096 (Some (with_ring 1 31 0)) =
    (IRQ_HANDLED, Some (credit (with_ring 1 31 0))).
Proof.
  apply (serviceInterrupt_saturated 4096 (with_ring 1 31 0)); simpl; unfold NUM_BUFS; lia.
Defined.

Lemma cdevRead_consumes_witness :
  exists ape',
    cdevRead 4096 (with_ring 2 30 7) [] 4096 [Sig] =
      Some (4096, ape',
            fst (copy_to_user [] (slot_data 4096 (with_ring 2 30 7) 7) 4096)) /\
    ring ape' = (2 - 1, 30 + 1, (7 + 1) mod NUM_BUFS) /\
    numAvailable ape' + numSubmitted ape' = 2 + 30 /\
    0 <= outIndex ape' < NUM_BUFS /\
    bar0 ape' = bar0 (with_ring 2 30 7) ++ submission 4096 65536 7.
Proof.
  apply (cdevRead_consumes 4096 (with_ring 2 30 7) [] 4096 [Sig]); simpl; unfold u32; lia.
Defined.

(** ** The ring from START on *)

Section Pipeline.

Variable BUF_SIZE : Z.

Lemma interrupts_cons a acts :
  interrupts (a :: acts) = (interrupts [a] + interrupts acts)%nat.
Proof. destruct a; reflexivity. Qed.

Lemma frames_read_cons a acts :
  frames_read BUF_SIZE (a :: acts) =
  (frames_read BUF_SIZE [a] + frames_read BUF_SIZE acts)%nat.
Proof. destruct a as [|buf count evs]; cbn; [|destruct (count <? BUF_SIZE)]; reflexivity. Qed.

(** One plausible action keeps the account. *)
Lemma step_ring_after h0 i r a ape :
  ring_after BUF_SIZE h0 i r ape ->
  plausible BUF_SIZE a ape = true ->
  exists ape',
    step BUF_SIZE a ape = Some ape' /\
    bufferArrayBus ape' = bufferArrayBus ape /\
    ring_after BUF_SIZE h0 (i + interrupts [a]) (r + frames_read BUF_SIZE [a]) ape'.
Proof.
  intros Hring Hpl. destruct a as [|buf count evs].
  - (* an interrupt *)
    cbn [step plausible interrupts frames_read] in *. apply Z.leb_le in Hpl.
    rewrite serviceInterrupt_eq. cbn [snd]. eexists. split; [reflexivity|].
    split; [reflexivity|].
    destruct ape as [h virt bus A S o]. unfold ring_after, ring in *. fields.
    destruct Hring as [(-> & -> & [= -> -> ->] & Hh) | (Hi & Hb & HA & HS & Ho & Hh)];
      right.
    + subst h. rewrite Nat.add_0_r. cbn [Nat.add]. unfold NUM_BUFS.
      change (wrap32 (0 + 1)) with 1. change (wrap32 (1 - 1)) with 0.
      change (wrap32 (32 - 1)) with 31. change (Z.to_nat (wrap32 (32 - 1 - 0))) with 31%nat.
      change (Z.of_nat 1) with 1. change (Z.of_nat 0) with 0.
      repeat split; try lia.
    + unfold NUM_BUFS in *.
      assert (HA' : wrap32 (A + 1) = A + 1) by (apply wrap32_u32; unfold u32; lia).
      assert (HS' : wrap32 (S - 1) = S - 1) by (apply wrap32_u32; unfold u32; lia).
      rewrite HA', HS'.
      replace (32 - (A + 1) - (S - 1)) with 0 by lia.
      rewrite wrap32_u32 by (unfold u32; lia).
      change (Z.to_nat (wrap32 0)) with O. cbn [ringSlots].
      unfold submissions at 1. cbn [map concat]. rewrite app_nil_r, Nat.add_0_r.
      repeat split; try lia. exact Hh.
  - (* a read *)
    cbn [step plausible interrupts frames_read] in *. rewrite Nat.add_0_r.
    destruct (count <? BUF_SIZE) eqn:Hc.
    + unfold cdevRead. rewrite Hc, Nat.add_0_r. eexists. repeat split. exact Hring.
    + cbn [orb] in Hpl. apply Z.leb_le in Hpl. apply Z.ltb_ge in Hc.
      rewrite cdevRead_eq by lia. eexists. split; [reflexivity|].
      split; [reflexivity|].
      destruct ape as [h virt bus A S o]. unfold ring_after, ring in *. fields.
      destruct Hring as [(_ & _ & [= -> _ _] & _) | (Hi & Hb & HA & HS & Ho & Hh)];
        [lia|].
      right. unfold NUM_BUFS in *.
      rewrite !wrap32_u32 by (unfold u32; lia).
      repeat split; try lia.
      * rewrite Ho, Z.add_mod_idemp_l by discriminate. f_equal. lia.
      * rewrite Hh, <- app_assoc. f_equal.
        replace (31 + (r + 1))%nat with ((31 + r) + 1)%nat by lia.
        rewrite (ringSlots_app (31 + r) 1 1), submissions_app, submissions_one. f_equal.
        rewrite Ho. unfold NUM_BUFS.
        replace (1 + Z.of_nat (31 + r)) with (Z.of_nat r + 1 * 32) by lia.
        rewrite Z.mod_add by discriminate. reflexivity.
Qed.

Lemma run_ring_after h0 acts : forall i r ape,
  ring_after BUF_SIZE h0 i r ape ->
  plausible_run BUF_SIZE acts ape = true ->
  exists ape',
    run BUF_SIZE acts ape = Some ape' /\
    bufferArrayBus ape' = bufferArrayBus ape /\
    ring_after BUF_SIZE h0 (i + interrupts acts) (r + frames_read BUF_SIZE acts) ape'.
Proof.
  induction acts as [|a acts IH]; intros i r ape Hring Hpl.
  - exists ape. cbn. rewrite !Nat.add_0_r. repeat split. exact Hring.
  - cbn [plausible_run run] in *. apply andb_prop in Hpl. destruct Hpl as [Ha Hrest].
    destruct (step_ring_after h0 i r a ape Hring Ha) as (ape1 & Hstep & Hbus & Hring1).
    rewrite Hstep in Hrest |- *.
    destruct (IH _ _ _ Hring1 Hrest) as (ape' & Hrun & Hbus' & Hring').
    exists ape'. split; [exact Hrun|]. split; [congruence|].
    rewrite interrupts_cons, frames_read_cons, !Nat.add_assoc. exact Hring'.
Qed.

(** X5.  From a START on, through any sequence of interrupts (each for a
    slot the endpoint holds) and of reads (each refused for its count or
    finding a frame): the driver never blocks, and once the first interrupt
    has come the counters are an exact account of what happened,
    [numAvailable] the interrupts minus the frames read, [numSubmitted] the
    other slots, [outIndex] the frames read modulo [NUM_BUFS]; the slots
    submitted since START are 1, 2, ..., 31, 0, 1, ... in ring order with
    none skipped or repeated, 31 of them by the first interrupt and one by
    each frame read. *)
Theorem run_counts (ape : AlteraDevice) (acts : list action) :
  ring ape = (0, 1, 0) ->
  plausible_run BUF_SIZE acts ape = true ->
  exists ape',
    run BUF_SIZE acts ape = Some ape' /\
    ((interrupts acts = O /\ ring ape' = (0, 1, 0) /\ bar0 ape' = bar0 ape) \/
     ((1 <= interrupts acts)%nat /\
      numAvailable ape' =
        Z.of_nat (interrupts acts) - Z.of_nat (frames_read BUF_SIZE acts) /\
      0 <= numAvailable ape' <= NUM_BUFS /\
      numSubmitted ape' = NUM_BUFS - numAvailable ape' /\
      outIndex ape' = Z.of_nat (frames_read BUF_SIZE acts) mod NUM_BUFS /\
      bar0 ape' =
        bar0 ape ++
        submissions BUF_SIZE (bufferArrayBus ape)
                    (ringSlots 1 (31 + frames_read BUF_SIZE acts)))).
Proof.
  intros Hring Hpl.
  destruct (run_ring_after (bar0 ape) acts 0 0 ape) as (ape' & Hrun & Hbus & Hafter).
  - left. repeat split. exact Hring.
  - exact Hpl.
  - exists ape'. split; [exact Hrun|]. cbn [Nat.add] in Hafter.
    destruct Hafter as [(Hi & _ & Hr & Hh) | (Hi & Hb & HA & HS & Ho & Hh)].
    + left. repeat split; assumption.
    + right. rewrite <- Hbus. rewrite HA. repeat split; try assumption; lia.
Qed.

(** A sleeping reader that an interrupt wakes goes on from the state the
    handler leaves. *)
Lemma cdevRead_Irq ape buf count evs ape1 :
  BUF_SIZE <= count ->
  numAvailable ape = 0 ->
  serviceInterrupt BUF_SIZE (Some ape) = (IRQ_HANDLED, Some ape1) ->
  cdevRead BUF_SIZE ape buf count (Irq :: evs) = cdevRead BUF_SIZE ape1 buf count evs.
Proof.
  intros Hcount HA Hisr. unfold cdevRead.
  apply Z.ltb_ge in Hcount. rewrite Hcount.
  cbn [wait_event_interruptible]. rewrite HA. cbn [Z.ltb Z.compare].
  rewrite Hisr. reflexivity.
Qed.

(** X6.  A read that gets past the count test with no frame available
    sleeps: it never returns if nothing more happens, and if the next thing
    to happen is an interrupt it returns [BUF_SIZE], leaving no slot
    available, all [NUM_BUFS] submitted and [outIndex] one slot further;
    the endpoint has then been given the handler's refill, from slot
    [outIndex + 1] on, and after it slot [outIndex] again. *)
Theorem cdevRead_sleeps_until_interrupt ape buf count evs :
  BUF_SIZE <= count ->
  numAvailable ape = 0 ->
  cdevRead BUF_SIZE ape buf count [] = None /\
  exists ape' buf',
    cdevRead BUF_SIZE ape buf count (Irq :: evs) = Some (BUF_SIZE, ape', buf') /\
    ring ape' = (0, NUM_BUFS, (outIndex ape + 1) mod NUM_BUFS) /\
    bar0 ape' =
      bar0 ape ++
      submissions BUF_SIZE (bufferArrayBus ape)
        (ringSlots (outIndex ape + 1)
           (Z.to_nat (wrap32 (NUM_BUFS - 1 - wrap32 (numSubmitted ape - 1))))) ++
      submission BUF_SIZE (bufferArrayBus ape) (outIndex ape).
Proof.
  intros Hcount HA. split.
  - unfold cdevRead. apply Z.ltb_ge in Hcount. rewrite Hcount.
    cbn [wait_event_interruptible]. now rewrite HA.
  - rewrite (cdevRead_Irq _ _ _ _ _ Hcount HA (serviceInterrupt_eq BUF_SIZE ape)).
    rewrite cdevRead_eq; [|exact Hcount|fields; rewrite HA; reflexivity].
    eexists. eexists. split; [reflexivity|].
    destruct ape as [h virt bus A S o]. fields. subst A.
    split; [reflexivity|]. now rewrite <- app_assoc.
Qed.

End Pipeline.

Lemma run_counts_witness :
  exists ape',
    run 4096 [Interrupt; Read (user_buffer 4096) 4096 []; Interrupt;
              Read [] 100 []; Interrupt] (with_ring 0 1 0) = Some ape' /\
    ((interrupts [Interrupt; Read (user_buffer 4096) 4096 []; Interrupt;
                  Read [] 100 []; Interrupt] = O /\
      ring ape' = (0, 1, 0) /\ bar0 ape' = bar0 (with_ring 0 1 0)) \/
     ((1 <= 3)%nat /\
      numAvailable ape' = Z.of_nat 3 - Z.of_nat 1 /\
      0 <= numAvailable ape' <= NUM_BUFS /\
      numSubmitted ape' = NUM_BUFS - numAvailable ape' /\
      outIndex ape' = Z.of_nat 1 mod NUM_BUFS /\
      bar0 ape' =
        bar0 (with_ring 0 1 0) ++ submissions 4096 65536 (ringSlots 1 (31 + 1)))).
Proof.
  apply (run_counts 4096 (with_ring 0 1 0)
           [Interrupt; Read (user_buffer 4096) 4096 []; Interrupt;
            Read [] 100 []; Interrupt]).
  - reflexivity.
  - vm_compute. reflexivity.
Defined.

Lemma cdevRead_sleeps_until_interrupt_witness :
  cdevRead 4096 (with_ring 0 1 0) (user_buffer 4096) 4096 [] = None /\
  exists ape' buf',
    cdevRead 4096 (with_ring 0 1 0) (user_buffer 4096) 4096 [Irq; Sig] =
      Some (4096, ape', buf') /\
    ring ape' = (0, NUM_BUFS, (0 + 1) mod NUM_BUFS) /\
    bar0 ape' =
      bar0 (with_ring 0 1 0) ++
      submissions 4096 65536
        (ringSlots (0 + 1) (Z.to_nat (wrap32 (NUM_BUFS - 1 - wrap32 (1 - 1))))) ++
      submission 4096 65536 0.
Proof.
  apply (cdevRead_sleeps_until_interrupt 4096 (with_ring 0 1 0) (user_buffer 4096)
                                         4096 [Sig]).
  - lia.
  - reflexivity.
Defined.

(** ** More on the control path *)

Section Batches.

Variable BUF_SIZE : Z.
Variables OP_RD OP_WR OP_SD : Z.
Variable hw : list mmio -> Z -> Z.

Local Abbreviation turnOf := (execCmd BUF_SIZE OP_RD OP_WR OP_SD hw).
Local Abbreviation batchOf := (cmdListLoop BUF_SIZE OP_RD OP_WR OP_SD hw).

(** A START turn in closed form. *)
Lemma execCmd_SD ucp ape umem kc :
  copy_from_user umem ucp = Some kc ->
  op kc = OP_SD ->
  OP_SD <> OP_RD ->
  OP_SD <> OP_WR ->
  turnOf ucp ape umem =
  Continue (mkAlteraDevice (bar0 ape ++ submission BUF_SIZE (bufferArrayBus ape) 0)
                           (bufferArrayVirt ape) (bufferArrayBus ape) 0 1 0) umem.
Proof.
  intros Hkc Hop Hrd Hwr. unfold execCmd. rewrite Hkc, Hop.
  apply Z.eqb_neq in Hrd, Hwr. rewrite Hrd, Hwr, Z.eqb_refl.
  destruct ape as [h virt bus A S o].
  unfold submitDmaReq, iowrite32, set_bar0, set_numSubmitted, set_numAvailable,
    set_outIndex, submission.
  cbn. rewrite <- !app_assoc. cbn. now rewrite Z.add_0_r.
Qed.

(** A WRITE turn in closed form. *)
Lemma execCmd_WR ucp ape umem c w :
  umem !! ucp = Some (mkucell c w) ->
  op c = OP_WR ->
  OP_WR <> OP_RD ->
  turnOf ucp ape umem = Continue (set_bar0 (bar0 ape ++ [write_access c]) ape) umem.
Proof.
  intros Hc Hop Hne. unfold execCmd, copy_from_user. rewrite Hc.
  cbn [fmap option_fmap option_map cell]. rewrite Hop.
  apply Z.eqb_neq in Hne. now rewrite Hne, Z.eqb_refl.
Qed.

(** A turn that runs anything but a START leaves the counters alone. *)
Lemma execCmd_ring ucp ape umem :
  (forall c, umem !! ucp = Some c -> op (cell c) <> OP_SD) ->
  match turnOf ucp ape umem with
  | Continue ape' _ | Return _ ape' _ =>
      ring ape' = ring ape /\ bufferArrayBus ape' = bufferArrayBus ape
  end.
Proof.
  intros Hno. unfold execCmd, copy_from_user.
  destruct (umem !! ucp) as [c|] eqn:Hc; cbn [fmap option_fmap option_map];
    [|now split].
  specialize (Hno c eq_refl).
  destruct (op (cell c) =? OP_RD).
  - cbn [ioread32]. destruct (put_user _ umem ucp); now split.
  - destruct (op (cell c) =? OP_WR); [now split|].
    destruct (op (cell c) =? OP_SD) eqn:E; [|now split].
    apply Z.eqb_eq in E. contradiction.
Qed.

(** A turn that goes on keeps the length of the user's array and the shape
    of every cell, and writes to no cell but a READ's own. *)
Lemma execCmd_shape ucp ape umem ape' umem' :
  turnOf ucp ape umem = Continue ape' umem' ->
  length umem' = length umem /\
  (forall j, shape <$> umem' !! j = shape <$> umem !! j) /\
  (forall j c, umem !! j = Some c -> op (cell c) <> OP_RD \/ j <> ucp ->
               umem' !! j = Some c).
Proof.
  unfold execCmd, copy_from_user.
  destruct (umem !! ucp) as [c|] eqn:Hc; cbn [fmap option_fmap option_map];
    [|discriminate].
  destruct (op (cell c) =? OP_RD) eqn:Hrd.
  - cbn [ioread32]. unfold put_user. rewrite Hc.
    destruct (writable c) eqn:Hw; [|discriminate].
    intros [= <- <-]. split; [apply length_insert|]. split.
    + intros j. destruct (decide (j = ucp)) as [->|Hne].
      * rewrite list_lookup_insert_eq by (eapply lookup_lt_Some; exact Hc).
        rewrite Hc. cbn. unfold shape. cbn. now rewrite Hw.
      * now rewrite list_lookup_insert_ne by congruence.
    + intros j c0 Hj [Hop | Hne].
      * destruct (decide (j = ucp)) as [->|Hne].
        -- rewrite Hc in Hj. injection Hj as <-. apply Z.eqb_eq in Hrd. contradiction.
        -- rewrite list_lookup_insert_ne by congruence. exact Hj.
      * rewrite list_lookup_insert_ne by congruence. exact Hj.
  - destruct (op (cell c) =? OP_WR).
    + intros [= <- <-]. repeat split. intros j c0 Hj _. exact Hj.
    + destruct (op (cell c) =? OP_SD); [|discriminate].
      intros [= <- <-]. repeat split. intros j c0 Hj _. exact Hj.
Qed.

(** X7.  START followed by the first interrupt fills the ring, whatever the
    device record was: the batch made of START returns 0 with counters
    (0, 1, 0), the handler then leaves (1, 31, 0), and between them the
    endpoint has been given the 32 slots once each, slot 0 first. *)
Theorem start_then_interrupt ucp ape umem kc :
  copy_from_user umem ucp = Some kc ->
  op kc = OP_SD ->
  OP_SD <> OP_RD ->
  OP_SD <> OP_WR ->
  exists ape1 ape2,
    batchOf 1 ucp ape umem = (0, ape1, umem) /\
    serviceInterrupt BUF_SIZE (Some ape1) = (IRQ_HANDLED, Some ape2) /\
    ring ape1 = (0, 1, 0) /\
    ring ape2 = (1, 31, 0) /\
    bar0 ape2 = bar0 ape ++ submissions BUF_SIZE (bufferArrayBus ape) (ringSlots 0 32).
Proof.
  intros Hkc Hop Hrd Hwr.
  eexists. eexists. split.
  - cbn [cmdListLoop]. rewrite (execCmd_SD _ _ _ _ Hkc Hop Hrd Hwr). reflexivity.
  - split; [apply serviceInterrupt_eq|].
    destruct ape as [h virt bus A S o]. cbn. rewrite <- !app_assoc. repeat split.
Qed.

(** X8.  A batch in which no command is a START leaves the three counters
    and the pool's address as they were, whether it succeeds or fails. *)
Theorem cmdListLoop_ring n : forall ucp ape umem rc ape' umem',
  (forall j c, (ucp <= j < ucp + n)%nat -> umem !! j = Some c -> op (cell c) <> OP_SD) ->
  batchOf n ucp ape umem = (rc, ape', umem') ->
  ring ape' = ring ape /\ bufferArrayBus ape' = bufferArrayBus ape.
Proof.
  induction n as [|n IH]; intros ucp ape umem rc ape' umem' Hno.
  - intros [= _ <- _]. now split.
  - cbn [cmdListLoop].
    pose proof (execCmd_ring ucp ape umem (fun c => Hno ucp c ltac:(lia))) as Hturn.
    destruct (turnOf ucp ape umem) as [a u|r a u] eqn:E.
    + intros H. destruct Hturn as [Hr Hb].
      apply execCmd_shape in E. destruct E as (_ & Hshape & _).
      apply IH in H.
      * destruct H as [Hr' Hb']. split; congruence.
      * intros j c Hj Hc. specialize (Hshape j). rewrite Hc in Hshape.
        destruct (umem !! j) as [c0|] eqn:Hc0; [|discriminate].
        cbn in Hshape. injection Hshape as Hop _ _.
        rewrite Hop. apply (Hno j c0); [lia|exact Hc0].
    + intros [= _ <- _]. exact Hturn.
Qed.

(** X9.  Success or failure, a batch keeps the length of the user's array
    and, in every cell, the op-code, the register and whether the cell is
    writable; the only cells it can alter are those of its own READ
    commands, and of those only the [val] field. *)
Theorem cmdListLoop_shape n : forall ucp ape umem rc ape' umem',
  batchOf n ucp ape umem = (rc, ape', umem') ->
  length umem' = length umem /\
  (forall j, shape <$> umem' !! j = shape <$> umem !! j) /\
  (forall j c, umem !! j = Some c ->
               op (cell c) <> OP_RD \/ (j < ucp)%nat \/ (ucp + n <= j)%nat ->
               umem' !! j = Some c).
Proof.
  induction n as [|n IH]; intros ucp ape umem rc ape' umem'.
  - intros [= _ _ <-]. repeat split. intros j c Hj _. exact Hj.
  - cbn [cmdListLoop]. destruct (turnOf ucp ape umem) as [a u|r a u] eqn:E.
    + intros H. apply IH in H. destruct H as (Hlen & Hshape & Hkeep).
      apply execCmd_shape in E. destruct E as (Hlen1 & Hshape1 & Hkeep1).
      split; [congruence|]. split.
      * intros j. now rewrite Hshape, Hshape1.
      * intros j c Hj Hwhy. apply Hkeep.
        -- apply Hkeep1; [exact Hj|]. destruct Hwhy as [?|[?|?]]; [now left|right; lia..].
        -- destruct Hwhy as [?|[?|?]]; [now left|right; lia..].
    + intros [= _ _ <-]. apply execCmd_Return in E. destruct E as (_ & -> & _).
      repeat split. intros j c Hj _. exact Hj.
Qed.

(** X10.  A batch of WRITE commands in readable cells cannot fail: it
    returns 0, the endpoint sees one write per command, in order, of [val]
    to word [(1 + 2 * reg) mod 2^32], and nothing else changes. *)
Theorem cmdListLoop_writes cmds : forall ucp ape umem,
  (forall i c, cmds !! i = Some c ->
               op c = OP_WR /\ exists w, umem !! (ucp + i)%nat = Some (mkucell c w)) ->
  OP_WR <> OP_RD ->
  batchOf (length cmds) ucp ape umem =
    (0, set_bar0 (bar0 ape ++ map write_access cmds) ape, umem).
Proof.
  induction cmds as [|c cmds IH]; intros ucp ape umem Hcells Hne.
  - cbn. rewrite app_nil_r. destruct ape; reflexivity.
  - cbn [length cmdListLoop].
    destruct (Hcells O c eq_refl) as [Hop [w Hw]]. rewrite Nat.add_0_r in Hw.
    rewrite (execCmd_WR _ _ _ _ _ Hw Hop Hne), IH.
    + destruct ape as [h virt bus A S o]. cbn. now rewrite <- app_assoc.
    + intros i c' Hi. destruct (Hcells (S i) c' Hi) as [Hop' [w' Hw']].
      split; [exact Hop'|]. exists w'. rewrite <- Hw'. f_equal. lia.
    + exact Hne.
Qed.

(** X11.  Registers 0 and 1 are the DMA base and control registers, and
    the control path does not keep WRITE away from them: the batch
    [WRITE(0, a); WRITE(1, n)] shows the endpoint exactly what
    [submitDmaReq(ape, a, n)] would, and the counters do not move. *)
Theorem cmdListLoop_submits_by_hand ucp ape umem a n w1 w2 :
  umem !! ucp = Some (mkucell (mkCmd OP_WR 0 a) w1) ->
  umem !! S ucp = Some (mkucell (mkCmd OP_WR 1 n) w2) ->
  OP_WR <> OP_RD ->
  u32 a ->
  u32 n ->
  exists ape',
    batchOf 2 ucp ape umem = (0, ape', umem) /\
    bar0 ape' = bar0 (submitDmaReq ape a n) /\
    ring ape' = ring ape.
Proof.
  intros H1 H2 Hne Ha Hn. eexists. split.
  - cbn [cmdListLoop].
    rewrite (execCmd_WR _ _ _ _ _ H1 eq_refl Hne).
    rewrite (execCmd_WR _ _ _ _ _ H2 eq_refl Hne). reflexivity.
  - destruct ape as [h virt bus A S o]. cbn.
    rewrite !wrap32_u32 by assumption. rewrite <- !app_assoc. split; reflexivity.
Qed.

End Batches.

Lemma start_then_interrupt_witness :
  exists ape1 ape2,
    cmdListLoop 4096 RD WR SD hw_regfile 1 0 (with_ring 3 29 5) (user_cmds [mkCmd SD 0 0]) =
      (0, ape1, user_cmds [mkCmd SD 0 0]) /\
    serviceInterrupt 4096 (Some ape1) = (IRQ_HANDLED, Some ape2) /\
    ring ape1 = (0, 1, 0) /\
    ring ape2 = (1, 31, 0) /\
    bar0 ape2 = bar0 (with_ring 3 29 5) ++ submissions 4096 65536 (ringSlots 0 32).
Proof.
  apply (start_then_interrupt 4096 RD WR SD hw_regfile 0 (with_ring 3 29 5)
           (user_cmds [mkCmd SD 0 0]) (mkCmd SD 0 0)).
  - reflexivity.
  - reflexivity.
  - discriminate.
  - discriminate.
Defined.

Lemma cmdListLoop_ring_witness :
  ring (set_bar0 (bar0 configured_started ++ [IoWrite 11 4660; IoRead 11 4660])
                 configured_started) = ring configured_started /\
  bufferArrayBus (set_bar0 (bar0 configured_started ++ [IoWrite 11 4660; IoRead 11 4660])
                           configured_started) = bufferArrayBus configured_started.
Proof.
  apply (cmdListLoop_ring 4096 RD WR SD hw_regfile 2 0 configured_started
           (user_cmds [mkCmd WR 5 4660; mkCmd RD 5 0]) 0
           (set_bar0 (bar0 configured_started ++ [IoWrite 11 4660; IoRead 11 4660])
                     configured_started)
           (user_cmds [mkCmd WR 5 4660; mkCmd RD 5 4660])).
  - intros j c Hj.
    destruct j as [|[|j]]; [| |lia]; intros [= <-]; discriminate.
  - reflexivity.
Defined.

Lemma cmdListLoop_shape_witness :
  length (user_cmds [mkCmd WR 5 4660; mkCmd RD 5 4660]) =
    length (user_cmds [mkCmd WR 5 4660; mkCmd RD 5 0]) /\
  (forall j, shape <$> user_cmds [mkCmd WR 5 4660; mkCmd RD 5 4660] !! j =
             shape <$> user_cmds [mkCmd WR 5 4660; mkCmd RD 5 0] !! j) /\
  (forall j c, user_cmds [mkCmd WR 5 4660; mkCmd RD 5 0] !! j = Some c ->
               op (cell c) <> RD \/ (j < 0)%nat \/ (0 + 2 <= j)%nat ->
               user_cmds [mkCmd WR 5 4660; mkCmd RD 5 4660] !! j = Some c).
Proof.
  apply (cmdListLoop_shape 4096 RD WR SD hw_regfile 2 0 configured_started
           (user_cmds [mkCmd WR 5 4660; mkCmd RD 5 0]) 0
           (set_bar0 (bar0 configured_started ++ [IoWrite 11 4660; IoRead 11 4660])
                     configured_started)
           (user_cmds [mkCmd WR 5 4660; mkCmd RD 5 4660])).
  reflexivity.
Defined.

Lemma cmdListLoop_writes_witness :
  cmdListLoop 4096 RD WR SD hw_regfile (length [mkCmd WR 2 7; mkCmd WR 3 9]) 0 opened
              (user_cmds [mkCmd WR 2 7; mkCmd WR 3 9]) =
    (0, set_bar0 (bar0 opened ++ map write_access [mkCmd WR 2 7; mkCmd WR 3 9]) opened,
     user_cmds [mkCmd WR 2 7; mkCmd WR 3 9]).
Proof.
  apply (cmdListLoop_writes 4096 RD WR SD hw_regfile [mkCmd WR 2 7; mkCmd WR 3 9] 0 opened
           (user_cmds [mkCmd WR 2 7; mkCmd WR 3 9])).
  - intros i c Hi.
    destruct i as [|[|i]]; [| |discriminate]; injection Hi as <-;
      (split; [reflexivity | exists true; reflexivity]).
  - discriminate.
Defined.

Lemma cmdListLoop_submits_by_hand_witness :
  exists ape',
    cmdListLoop 4096 RD WR SD hw_regfile 2 0 opened
                (user_cmds [mkCmd WR 0 65536; mkCmd WR 1 32]) =
      (0, ape', user_cmds [mkCmd WR 0 65536; mkCmd WR 1 32]) /\
    bar0 ape' = bar0 (submitDmaReq opened 65536 32) /\
    ring ape' = ring opened.
Proof.
  apply (cmdListLoop_submits_by_hand 4096 RD WR SD hw_regfile 0 opened
           (user_cmds [mkCmd WR 0 65536; mkCmd WR 1 32]) 65536 32 true true).
  - reflexivity.
  - reflexivity.
  - discriminate.
  - unfold u32. lia.
  - unfold u32. lia.
Defined.

(** ** The ioctl entry point *)

Section Ioctl.

Variable BUF_SIZE : Z.
Variables OP_RD OP_WR OP_SD : Z.
Variable hw : list mmio -> Z -> Z.
Variables FPGALINK_IOC_MAGIC FPGALINK_IOC_MAXNR FPGALINK_CMDLIST : Z.

Local Abbreviation ioctl :=
  (cdevIOCtl BUF_SIZE OP_RD OP_WR OP_SD hw
             FPGALINK_IOC_MAGIC FPGALINK_IOC_MAXNR FPGALINK_CMDLIST).

(** X12.  [cdevIOCtl] returns 0, "not a typewriter" or "bad address" and
    nothing else.  It returns "not a typewriter" exactly for a command word
    whose type is not the driver's magic or whose number is above the
    driver's highest, and then, having looked neither at the user's
    pointer nor at the device, leaves everything as it was. *)
Theorem cdevIOCtl_results cmd arg ape umem rc ape' umem' :
  ioctl cmd arg ape umem = (rc, ape', umem') ->
  (rc = 0 \/ rc = - ENOTTY \/ rc = - EFAULT) /\
  (rc = - ENOTTY <->
   _IOC_TYPE cmd <> FPGALINK_IOC_MAGIC \/ FPGALINK_IOC_MAXNR < _IOC_NR cmd) /\
  (rc = - ENOTTY -> ape' = ape /\ umem' = umem).
Proof.
  unfold cdevIOCtl.
  destruct (_IOC_TYPE cmd =? FPGALINK_IOC_MAGIC) eqn:Ht; cbn [negb].
  2:{ apply Z.eqb_neq in Ht. intros [= <- <- <-]. repeat split; auto. }
  apply Z.eqb_eq in Ht.
  destruct (_IOC_NR cmd >? FPGALINK_IOC_MAXNR) eqn:Hn.
  { apply Z.gtb_lt in Hn. intros [= <- <- <-]. repeat split; auto. }
  assert (Hn' : _IOC_NR cmd <= FPGALINK_IOC_MAXNR).
  { rewrite Z.gtb_ltb in Hn. now apply Z.ltb_ge in Hn. }
  assert (Hforeign : ~ (_IOC_TYPE cmd <> FPGALINK_IOC_MAGIC \/
                        FPGALINK_IOC_MAXNR < _IOC_NR cmd)) by (intros [?|?]; [congruence|lia]).
  assert (Hother : forall r, r = 0 \/ r = - EFAULT ->
            (r = 0 \/ r = - ENOTTY \/ r = - EFAULT) /\
            (r = - ENOTTY <->
             _IOC_TYPE cmd <> FPGALINK_IOC_MAGIC \/ FPGALINK_IOC_MAXNR < _IOC_NR cmd) /\
            (r = - ENOTTY -> ape' = ape /\ umem' = umem)).
  { intros r Hr.
    assert (Hne : r <> - ENOTTY) by (unfold ENOTTY, EFAULT in *; lia).
    split; [tauto|]. split; [tauto|]. intros E. contradiction. }
  match goal with |- context [if ?e then (- EFAULT, ape, umem) else _] => destruct e end.
  { intros [= <- _ _]. apply Hother. now right. }
  destruct (cmd =? FPGALINK_CMDLIST).
  - destruct (arg_CmdList arg) as [[numCmds ucp]|].
    + intros H. apply cmdListLoop_rc in H. apply Hother. exact H.
    + intros [= <- _ _]. apply Hother. now right.
  - intros [= <- _ _]. apply Hother. now left.
Qed.

(** X13.  [cdevIOCtl] changes the device record or the user's array only
    when the command word is the command-list command, of the driver's
    type and within its numbers, and the list copied from the user holds at
    least one command; what it then does and returns is what the batch
    does and returns. *)
Theorem cdevIOCtl_effect cmd arg ape umem rc ape' umem' :
  ioctl cmd arg ape umem = (rc, ape', umem') ->
  ape' <> ape \/ umem' <> umem ->
  cmd = FPGALINK_CMDLIST /\
  _IOC_TYPE cmd = FPGALINK_IOC_MAGIC /\
  _IOC_NR cmd <= FPGALINK_IOC_MAXNR /\
  exists numCmds ucp,
    arg_CmdList arg = Some (numCmds, ucp) /\
    0 < numCmds /\
    cmdListLoop BUF_SIZE OP_RD OP_WR OP_SD hw (Z.to_nat numCmds) ucp ape umem =
      (rc, ape', umem').
Proof.
  unfold cdevIOCtl. intros H Hchanged.
  assert (Hsame : forall r, (r, ape, umem) = (rc, ape', umem') -> False).
  { intros r [= _ <- <-]. destruct Hchanged; congruence. }
  destruct (_IOC_TYPE cmd =? FPGALINK_IOC_MAGIC) eqn:Ht; cbn [negb] in H;
    [|destruct (Hsame _ H)].
  apply Z.eqb_eq in Ht.
  destruct (_IOC_NR cmd >? FPGALINK_IOC_MAXNR) eqn:Hn; [destruct (Hsame _ H)|].
  rewrite Z.gtb_ltb in Hn. apply Z.ltb_ge in Hn.
  match type of H with
  | context [if ?e then (- EFAULT, ape, umem) else _] => destruct e
  end; [destruct (Hsame _ H)|].
  destruct (cmd =? FPGALINK_CMDLIST) eqn:Hcmd; [|destruct (Hsame _ H)].
  apply Z.eqb_eq in Hcmd.
  destruct (arg_CmdList arg) as [[numCmds ucp]|]; [|destruct (Hsame _ H)].
  repeat split; try assumption.
  exists numCmds, ucp. split; [reflexivity|]. split; [|exact H].
  destruct (Z.ltb_spec 0 numCmds) as [Hpos|Hle]; [exact Hpos|].
  exfalso. replace (Z.to_nat numCmds) with O in H by lia.
  exact (Hsame _ H).
Qed.

End Ioctl.

Lemma cdevIOCtl_results_witness :
  (- EFAULT = 0 \/ - EFAULT = - ENOTTY \/ - EFAULT = - EFAULT) /\
  (- EFAULT = - ENOTTY <-> _IOC_TYPE CMDLIST <> MAGIC \/ MAXNR < _IOC_NR CMDLIST) /\
  (- EFAULT = - ENOTTY ->
   with_ring 3 29 5 = with_ring 3 29 5 /\
   user_cmds [mkCmd 99 0 0] = user_cmds [mkCmd 99 0 0]).
Proof.
  apply (cdevIOCtl_results 4096 RD WR SD hw_regfile MAGIC MAXNR CMDLIST CMDLIST
           (mk_ioctl_arg (fun _ _ => true) (Some (1, O))) (with_ring 3 29 5)
           (user_cmds [mkCmd 99 0 0])).
  reflexivity.
Defined.

Lemma cdevIOCtl_effect_witness :
  CMDLIST = CMDLIST /\
  _IOC_TYPE CMDLIST = MAGIC /\
  _IOC_NR CMDLIST <= MAXNR /\
  exists numCmds ucp,
    arg_CmdList (mk_ioctl_arg (fun _ _ => true) (Some (2, O))) = Some (numCmds, ucp) /\
    0 < numCmds /\
    cmdListLoop 4096 RD WR SD hw_regfile (Z.to_nat numCmds) ucp (with_ring 3 29 5)
                (user_cmds [mkCmd WR 2 3735928559; mkCmd SD 0 0]) =
      (0, configured_started, user_cmds [mkCmd WR 2 3735928559; mkCmd SD 0 0]).
Proof.
  apply (cdevIOCtl_effect 4096 RD WR SD hw_regfile MAGIC MAXNR CMDLIST CMDLIST
           (mk_ioctl_arg (fun _ _ => true) (Some (2, O))) (with_ring 3 29 5)
           (user_cmds [mkCmd WR 2 3735928559; mkCmd SD 0 0])).
  - reflexivity.
  - left. discriminate.
Defined.

(** ** Attach and detach *)

Section Attach.

Variable BUF_SIZE : Z.

(** The three ways [mapBars] can end when no BAR is mapped yet. *)
Lemma mapBars_cases k b tr :
  (exists a, k_pci_iomap k O = Some a /\
             k_pci_resource_start k O <> 0 /\ k_pci_resource_end k O <> 0 /\
             256 <= wrapL (k_pci_resource_end k O - k_pci_resource_start k O + 1) /\
             mapBars k [b] tr = (0, [Some a], tr ++ [(pci_iomap O, true)])) \/
  (k_pci_iomap k O = None /\
   k_pci_resource_start k O <> 0 /\ k_pci_resource_end k O <> 0 /\
   256 <= wrapL (k_pci_resource_end k O - k_pci_resource_start k O + 1) /\
   mapBars k [b] tr = (-1, [None], tr ++ [(pci_iomap O, false)])) \/
  ((k_pci_resource_start k O = 0 \/ k_pci_resource_end k O = 0 \/
    wrapL (k_pci_resource_end k O - k_pci_resource_start k O + 1) < 256) /\
   mapBars k [b] tr = (-1, [None], tr)).
Proof.
  unfold mapBars, APE_BAR_NUM. cbn [seq mapBars_loop].
  change (default 0 (barMinLen !! O)) with 256. change (256 =? 0) with false.
  cbn match.
  destruct (k_pci_resource_start k O =? 0) eqn:Hs; cbn [orb].
  { apply Z.eqb_eq in Hs. right. right. split; [now left | reflexivity]. }
  destruct (k_pci_resource_end k O =? 0) eqn:He.
  { apply Z.eqb_eq in He. right. right. split; [right; now left | reflexivity]. }
  apply Z.eqb_neq in Hs, He.
  destruct (wrapL (k_pci_resource_end k O - k_pci_resource_start k O + 1) <? 256) eqn:Hl.
  { apply Z.ltb_lt in Hl. right. right. split; [right; now right | reflexivity]. }
  apply Z.ltb_ge in Hl.
  destruct (k_pci_iomap k O) as [a|].
  - left. exists a. repeat split; assumption.
  - right. left. repeat split; assumption.
Qed.

(** X14.  [mapBars] returns 0 or -1.  It returns 0 exactly when BAR0 has a
    non-zero start and end, its length [end - start + 1] (as an
    [unsigned long]) is at least 256 bytes and [pci_iomap] maps it; BAR0 is
    then mapped.  When it fails it leaves no BAR mapped and holds nothing
    more than before. *)
Theorem mapBars_result k b tr rc bar' tr' :
  mapBars k [b] tr = (rc, bar', tr') ->
  (rc = 0 \/ rc = -1) /\
  (rc = 0 <->
   k_pci_resource_start k O <> 0 /\ k_pci_resource_end k O <> 0 /\
   256 <= wrapL (k_pci_resource_end k O - k_pci_resource_start k O + 1) /\
   is_Some (k_pci_iomap k O)) /\
  (rc = 0 ->
   exists a, k_pci_iomap k O = Some a /\ bar' = [Some a] /\
             acquired tr' = acquired tr ++ [R_bar O]) /\
  (rc <> 0 ->
   bar' = [None] /\ acquired tr' = acquired tr /\ released tr' = released tr).
Proof.
  destruct (mapBars_cases k b tr)
    as [(a & Ha & Hs & He & Hl & ->) | [(Ha & Hs & He & Hl & ->) | (Hbad & ->)]];
    intros [= <- <- <-].
  - split; [now left|]. split; [|split].
    + split; [intros _; repeat split; try assumption; now exists a | reflexivity].
    + intros _. exists a. repeat split; [exact Ha|].
      unfold acquired. now rewrite omap_app.
    + intros H. now contradiction H.
  - split; [now right|]. split; [|split].
    + split; [discriminate|]. intros (_ & _ & _ & [a Ha']). congruence.
    + discriminate.
    + intros _. unfold acquired, released. rewrite !omap_app. cbn.
      now rewrite !app_nil_r.
  - split; [now right|]. split; [|split].
    + split; [discriminate|]. intros (? & ? & ? & _). destruct Hbad as [?|[?|?]]; [congruence..|lia].
    + discriminate.
    + intros _. repeat split.
Qed.

(** [pcieProbe] split by the step that ends it. *)
Ltac probe_split k :=
  unfold pcieProbe, sizeof_Buffer;
  change (repeat None APE_BAR_NUM) with [@None Z];
  repeat match goal with
    | |- context [mapBars k [None] ?t] =>
        let Hmap := fresh "Hmap" in
        destruct (mapBars_cases k None t)
          as [(? & ? & ? & ? & ? & Hmap) | [(? & ? & ? & ? & Hmap) | (? & Hmap)]];
        rewrite Hmap; clear Hmap
    | |- context [if negb ?b then _ else _] => destruct b eqn:?; cbn [negb]
    | |- context [if ?b then _ else _] => destruct b eqn:?
    | |- context [match k_pci_alloc_consistent k with _ => _ end] =>
        destruct (k_pci_alloc_consistent k) as [[? ?]|] eqn:?
    end.

Ltac absurd_branch :=
  match goal with
  | H : (0 =? 0) = false |- _ => discriminate H
  | H : (-1 =? 0) = true |- _ => discriminate H
  end.

Ltac nonzero :=
  repeat match goal with
    | H : (_ =? 0) = false |- _ => apply Z.eqb_neq in H
    end;
  unfold ENODEV, ENOMEM in *; first [congruence | lia].

(** X15.  [pcieProbe] returns 0 exactly when it takes the device.  The
    frame size is then a multiple of 128, the nine resources have been
    taken in the order bookkeeping, device, MSI, regions, IRQ, BAR0, pool,
    device number, character device, none has been given back, and the
    ring starts at (0, 0, 0) with BAR0 still untouched. *)
Theorem pcieProbe_taken k rc tr b :
  pcieProbe BUF_SIZE k = (rc, tr, b) ->
  (rc = 0 <-> is_Some b) /\
  (forall brd, b = Some brd ->
     BUF_SIZE mod 128 = 0 /\
     acquired tr = [R_ape; R_device; R_msi; R_regions; R_irq; R_bar O;
                    R_pool; R_chrdev; R_cdev] /\
     released tr = [] /\
     ring (ape_of brd) = (0, 0, 0) /\
     bar0 (ape_of brd) = [] /\
     exists a, bar brd = [Some a]).
Proof.
  probe_split k; intros [= <- <- <-]; try absurd_branch.
  all: try (split; [split; [intros ?; exfalso; nonzero | intros [? Hx]; discriminate Hx]
                | intros ? Hb; discriminate Hb]).
  all: split; [split; [eexists; reflexivity | reflexivity]|].
  all: intros brd [= <-];
    match goal with H : (BUF_SIZE mod 128 =? 0) = true |- _ => apply Z.eqb_eq in H end.
  all: repeat split; try assumption; eexists; reflexivity.
Qed.

(** X16.  A [pcieProbe] that does not take the device returns a non-zero
    result, and on its way out gives back what it had taken, last taken
    first, the bookkeeping record last of all, with one exception: the
    device it enabled is disabled only when [pci_request_regions] was the
    call that failed, and is left enabled after every other failure. *)
Theorem pcieProbe_unwinds k rc tr :
  pcieProbe BUF_SIZE k = (rc, tr, None) ->
  rc <> 0 /\
  released tr =
    rev (if regions_refused tr then acquired tr
         else List.filter (fun r => negb (is_device r)) (acquired tr)).
Proof.
  pose (Q := fun (rc : Z) (tr : list kevent) =>
    rc <> 0 /\
    released tr =
      rev (if regions_refused tr then acquired tr
           else List.filter (fun r => negb (is_device r)) (acquired tr))).
  change (pcieProbe BUF_SIZE k = (rc, tr, None) -> Q rc tr).
  probe_split k; intros Heq; try absurd_branch; try discriminate Heq.
  all: injection Heq as <- <-; split; [intros ?; nonzero | reflexivity].
Qed.

(** X17.  After a [pcieProbe] that took the device, [pcieRemove] takes
    nothing and gives back every resource the probe took, in exactly the
    reverse order. *)
Theorem pcieProbe_pcieRemove k rc tr brd :
  pcieProbe BUF_SIZE k = (rc, tr, Some brd) ->
  released (pcieRemove brd) = rev (acquired tr) /\
  acquired (pcieRemove brd) = [].
Proof.
  probe_split k; intros Heq; try absurd_branch; try discriminate Heq.
  all: injection Heq as <- <- <-; split; reflexivity.
Qed.

End Attach.

Lemma mapBars_result_witness :
  (0 = 0 \/ 0 = -1) /\
  (0 = 0 <->
   k_pci_resource_start generous O <> 0 /\ k_pci_resource_end generous O <> 0 /\
   256 <= wrapL (k_pci_resource_end generous O - k_pci_resource_start generous O + 1) /\
   is_Some (k_pci_iomap generous O)) /\
  (0 = 0 ->
   exists a, k_pci_iomap generous O = Some a /\ [Some 3735879680] = [Some a] /\
             acquired ([] ++ [(pci_iomap O, true)]) = acquired [] ++ [R_bar O]) /\
  (0 <> 0 ->
   [Some 3735879680] = [None] /\
   acquired ([] ++ [(pci_iomap O, true)]) = acquired [] /\
   released ([] ++ [(pci_iomap O, true)]) = released []).
Proof.
  apply (mapBars_result generous None [] 0 [Some 3735879680] ([] ++ [(pci_iomap O, true)])).
  reflexivity.
Defined.

Lemma pcieProbe_taken_witness :
  (0 = 0 <-> is_Some (snd (pcieProbe 4096 generous))) /\
  (forall brd, snd (pcieProbe 4096 generous) = Some brd ->
     4096 mod 128 = 0 /\
     acquired (snd (fst (pcieProbe 4096 generous))) =
       [R_ape; R_device; R_msi; R_regions; R_irq; R_bar O; R_pool; R_chrdev; R_cdev] /\
     released (snd (fst (pcieProbe 4096 generous))) = [] /\
     ring (ape_of brd) = (0, 0, 0) /\
     bar0 (ape_of brd) = [] /\
     exists a, bar brd = [Some a]).
Proof.
  apply (pcieProbe_taken 4096 generous 0 (snd (fst (pcieProbe 4096 generous)))
                         (snd (pcieProbe 4096 generous))).
  reflexivity.
Defined.

(** The generous kernel, except that [cdev_add] fails with [-EBUSY]. *)
Lemma pcieProbe_unwinds_witness :
  -16 <> 0 /\
  released (snd (fst (pcieProbe 4096
     (mkkernel true 0 0 0 (fun _ => 0) 0 (fun _ => 4026531840) (fun _ => 4026535935)
               (fun _ => Some 3735879680) (Some (fun _ => Byte.x00, 65536)) 0 (-16))))) =
  [R_chrdev; R_pool; R_bar O; R_irq; R_regions; R_msi; R_ape].
Proof.
  apply (pcieProbe_unwinds 4096
     (mkkernel true 0 0 0 (fun _ => 0) 0 (fun _ => 4026531840) (fun _ => 4026535935)
               (fun _ => Some 3735879680) (Some (fun _ => Byte.x00, 65536)) 0 (-16))
     (-16)
     (snd (fst (pcieProbe 4096
       (mkkernel true 0 0 0 (fun _ => 0) 0 (fun _ => 4026531840) (fun _ => 4026535935)
                 (fun _ => Some 3735879680) (Some (fun _ => Byte.x00, 65536)) 0 (-16)))))).
  reflexivity.
Defined.

Lemma pcieProbe_pcieRemove_witness :
  released (pcieRemove (mkBoard [Some 3735879680] (mkAlteraDevice [] (fun _ => Byte.x00) 65536 0 0 0))) =
    rev (acquired (snd (fst (pcieProbe 4096 generous)))) /\
  acquired (pcieRemove (mkBoard [Some 3735879680] (mkAlteraDevice [] (fun _ => Byte.x00) 65536 0 0 0))) = [].
Proof.
  apply (pcieProbe_pcieRemove 4096 generous 0 (snd (fst (pcieProbe 4096 generous)))
           (mkBoard [Some 3735879680] (mkAlteraDevice [] (fun _ => Byte.x00) 65536 0 0 0))).
  reflexivity.
Defined.
